(** * ogr: the Pagure service client and the GitLab comment adapter

    A shallow embedding of [ogr/services/pagure/service.py] and
    [ogr/services/gitlab/comments.py].  Python values are an inductive type,
    dictionaries are finite maps, exceptions are values of a result type, and
    the HTTP session is a function from the request that is sent to the
    response (or the exception) that comes back; every operation also yields
    the list of requests it has sent. *)

From stdpp Require Import gmap strings list fin_maps.
From Stdlib Require Import SpecFloat.

Set Warnings "-register-all".
Open Scope Z_scope.

(** ** Python values *)

(** The values [json.loads] builds, which are also the values the request
    parameters are made of: [None], booleans, integers, floats, strings, lists
    and dictionaries with string keys. *)
Inductive value : Type :=
  | VNone
  | VBool (b : bool)
  | VInt (n : Z)
  | VFloat (f : spec_float)
  | VStr (s : string)
  | VList (l : list value)
  | VDict (m : gmap string value).

Abbreviation dict := (gmap string value).

(** An optional string argument ([Optional[str]]) seen as a value. *)
Definition of_opt_str (o : option string) : value :=
  match o with
  | Some s => VStr s
  | None => VNone
  end.

(** Truth value of an [Optional[str]]: [None] and [""] are false. *)
Definition str_truthy (o : option string) : bool :=
  match o with
  | Some s => negb (bool_decide (s = ""))
  | None => false
  end.

(** Truth value of a value: [None], [False], zero, the empty string, the
    empty list and the empty dictionary are false, every other value is
    true. *)
Definition truthy (v : value) : bool :=
  match v with
  | VNone => false
  | VBool b => b
  | VInt n => negb (bool_decide (n = 0))
  | VFloat (S754_zero _) => false
  | VFloat _ => true
  | VStr s => negb (bool_decide (s = ""))
  | VList l => match l with [] => false | _ :: _ => true end
  | VDict m => negb (bool_decide (m = ∅))
  end.

(** ** Exceptions *)

(** The pieces of an f-string: literal text, and [{v}] for a value [v], which
    Python renders with [str]. *)
Inductive piece : Type :=
  | Lit (s : string)
  | Fmt (v : value).

(** A positional argument of an exception: a message, or the network error
    that is wrapped. *)
Inductive exc_arg : Type :=
  | AMsg (m : list piece)
  | AErr (er : string).

(** Modelled from the spec: [ogr.exceptions.PagureAPIException] is not among
    the sources.  The record keeps what the call sites pass to the
    constructor: the positional arguments and the two keyword arguments, which
    default to [None]; "the raised API-error carries that message and the full
    decoded body". *)
Record PagureAPIException : Type := mkPagureAPIException {
  args : list exc_arg;
  pagure_error : value;
  pagure_response : option value
}.

Inductive exn : Type :=
  | EPagureAPI (ex : PagureAPIException)
  | EOgr (msg : string)              (* OgrException(msg) *)
  | EConnectionError (er : string)   (* requests.exceptions.ConnectionError *)
  | EOther (er : string)             (* any other exception of the session *)
  | EKeyError (k : value)
  | EIndexError
  | ETypeError
  | EAttributeError (name : string).

Inductive result (A : Type) : Type :=
  | Return (a : A)
  | Raise (e : exn).
Arguments Return {A} a.
Arguments Raise {A} e.

Definition bind {A B} (r : result A) (k : A → result B) : result B :=
  match r with
  | Return a => k a
  | Raise e => Raise e
  end.

(** ** Subscripting and comparison *)

(** [v[k]] for a string [k]. *)
Definition getitem_str (v : value) (k : string) : result value :=
  match v with
  | VDict m =>
      match m !! k with
      | Some x => Return x
      | None => Raise (EKeyError (VStr k))
      end
  | _ => Raise ETypeError
  end.

(** [v[i]] for an index [i] that is not negative. *)
Definition getitem_int (v : value) (i : nat) : result value :=
  match v with
  | VList l =>
      match l !! i with
      | Some x => Return x
      | None => Raise EIndexError
      end
  | VStr s =>
      match String.get i s with
      | Some c => Return (VStr (String c EmptyString))
      | None => Raise EIndexError
      end
  | VDict _ => Raise (EKeyError (VInt (Z.of_nat i)))
  | _ => Raise ETypeError
  end.

(** [v == s] for a string [s]. *)
Definition eq_str (v : value) (s : string) : bool :=
  match v with
  | VStr t => bool_decide (t = s)
  | _ => false
  end.

(** [k in s] for two strings: [k] occurs in [s]. *)
Fixpoint is_substring (k s : string) : bool :=
  String.prefix k s
  || match s with
     | EmptyString => false
     | String _ rest => is_substring k rest
     end.

(** [k in v] for a string [k]: a key of a dictionary, an element of a
    list, a part of a string; the other values are not iterable. *)
Definition contains (k : string) (v : value) : result bool :=
  match v with
  | VDict m => Return (bool_decide (is_Some (m !! k)))
  | VList l => Return (existsb (λ x, eq_str x k) l)
  | VStr s => Return (is_substring k s)
  | _ => Raise ETypeError
  end.

(** ** The HTTP library *)

Module requests.

(** What [Session.request] is called with. *)
Record Request : Type := mkRequest {
  method : string;
  url : string;
  params : option dict;
  headers : gmap string string;
  data : option dict;
  verify : bool
}.

(** What it answers.  [json] is the result of [response.json()]: [None]
    stands for the [ValueError] of a body that is not JSON, and [Some v] for
    a body that decodes to the value [v], of any kind ([Some VNone] is the
    body [null]). *)
Record Response : Type := mkResponse {
  status_code : Z;
  ok : bool;
  content : list Byte.byte;
  text : string;
  reason : string;
  json : option value
}.

End requests.

(** Modelled from the spec: [ogr.utils.RequestResponse] is not among the
    sources.  "Raw response wrapper: { status code, ok flag, raw bytes,
    decoded JSON (optional), reason string }"; the [json] argument of the
    constructor is read back as [json_content]. *)
Record RequestResponse : Type := mkRequestResponse {
  status_code : Z;
  ok : bool;
  content : list Byte.byte;
  json_content : option value;
  reason : string
}.

(** ** The service *)

Record PagureService : Type := mkPagureService {
  instance_url : string;
  _token : option string;
  read_only : bool;
  insecure : bool;
  header : gmap string string;
  (** [self.session.request]: the answer of the forge to a request *)
  session : requests.Request → result requests.Response
}.

(** A computation of the client: the requests it has sent, in order, and its
    outcome. *)
Definition io (A : Type) : Type := (list requests.Request * result A)%type.

Definition sent {A} (c : io A) : list requests.Request := c.1.
Definition outcome {A} (c : io A) : result A := c.2.

(** [PagureService.__init__] *)
Definition PagureService_init (token : option string) (instance_url : string)
    (read_only insecure : bool)
    (session : requests.Request → result requests.Response) : PagureService :=
  {| instance_url := instance_url;
     _token := token;
     read_only := read_only;
     insecure := insecure;
     header :=
       match token with
       | Some t =>
           if str_truthy token then {[ "Authorization" := "token " +:+ t ]} else ∅
       | None => ∅
       end;
     session := session |}.

(** [header or self.header] *)
Definition header_or (h : option (gmap string string)) (d : gmap string string)
    : gmap string string :=
  match h with
  | Some h' => if bool_decide (h' = ∅) then d else h'
  | None => d
  end.

(** [PagureService.get_raw_request] *)
Definition get_raw_request (self : PagureService) (url : string)
    (method : string) (params data : option dict)
    (header_arg : option (gmap string string)) : io RequestResponse :=
  let request :=
    {| requests.method := method;
       requests.url := url;
       requests.params := params;
       requests.headers := header_or header_arg self.(header);
       requests.data := data;
       requests.verify := negb self.(insecure) |} in
  match self.(session) request with
  | Raise e => ([request], Raise e)
  | Return response =>
      let json_output := requests.json response in
      ([request],
       Return {| status_code := requests.status_code response;
                 ok := requests.ok response;
                 content := requests.content response;
                 json_content := json_output;
                 reason := requests.reason response |})
  end.

(** [method or "GET"] *)
Definition method_or_GET (method : option string) : string :=
  match method with
  | Some m => if str_truthy method then m else "GET"
  | None => "GET"
  end.

(** [PagureService.call_api_raw] *)
Definition call_api_raw (self : PagureService) (url : string)
    (method : option string) (params data : option dict) : io RequestResponse :=
  let method := method_or_GET method in
  match get_raw_request self url method params data None with
  | (reqs, Raise (EConnectionError er)) =>
      (reqs,
       Raise (EPagureAPI
         {| args := [AMsg [Lit ("Cannot connect to url: `" +:+ url +:+ "`.")];
                     AErr er];
            pagure_error := VNone;
            pagure_response := None |}))
  | (reqs, r) => (reqs, r)
  end.

(** The checks of [call_api] on the response of [call_api_raw], lines 123
    to 149. *)
Definition check_response (url : string) (response : RequestResponse) : result value :=
  if bool_decide (response.(status_code) = 404) then
    bind
      (match response.(json_content) with
       | Some j =>
           if truthy j then
             bind (contains "error" j) (λ found : bool,
               if found then getitem_str j "error" else Return VNone)
           else Return VNone
       | None => Return VNone
       end)
      (λ error_msg,
         Raise (EPagureAPI
           {| args := [AMsg [Lit ("Page `" +:+ url
                                  +:+ "` not found when calling Pagure API.")]];
              pagure_error := error_msg;
              pagure_response := None |}))
  else
    match response.(json_content) with
    | None =>
        Raise (EPagureAPI
          {| args := [AMsg [Lit "Error while decoding JSON: {0}"]];
             pagure_error := VNone;
             pagure_response := None |})
    | Some j =>
        if negb (truthy j) then
          Raise (EPagureAPI
            {| args := [AMsg [Lit "Error while decoding JSON: {0}"]];
               pagure_error := VNone;
               pagure_response := None |})
        else if negb response.(ok) then
          bind (contains "error" j) (λ found : bool,
            if found then
              bind (getitem_str j "error") (λ error_msg,
                Raise (EPagureAPI
                  {| args := [AMsg [Lit ("Pagure API returned an error when calling `"
                                         +:+ url +:+ "`: ");
                                    Fmt error_msg]];
                     pagure_error := error_msg;
                     pagure_response := Some j |}))
            else
              Raise (EPagureAPI
                {| args := [AMsg [Lit ("Problem with Pagure API when calling `"
                                       +:+ url +:+ "`")]];
                   pagure_error := VNone;
                   pagure_response := None |}))
        else Return j
    end.

(** [PagureService.call_api] *)
Definition call_api (self : PagureService) (url : string)
    (method : option string) (params data : option dict) : io value :=
  match call_api_raw self url method params data with
  | (reqs, Raise e) => (reqs, Raise e)
  | (reqs, Return response) => (reqs, check_response url response)
  end.

(** [PagureService.api_url] *)
Definition api_url (self : PagureService) : string :=
  self.(instance_url) +:+ "/api/0/".

(** [filter(lambda x: x is not None, args)] *)
Fixpoint filter_not_None (args : list (option string)) : list string :=
  match args with
  | [] => []
  | None :: rest => filter_not_None rest
  | Some x :: rest => x :: filter_not_None rest
  end.

(** [PagureService.get_api_url] *)
Definition get_api_url (self : PagureService) (args : list (option string))
    (add_api_endpoint_part : bool) : string :=
  let args_list := [] ++ filter_not_None args in
  if add_api_endpoint_part then api_url self +:+ String.concat "/" args_list
  else (self.(instance_url) +:+ "/") +:+ String.concat "/" args_list.

(** [PagureService.change_token] *)
Definition change_token (self : PagureService) (token : string) : PagureService :=
  {| instance_url := self.(instance_url);
     _token := Some token;
     read_only := self.(read_only);
     insecure := self.(insecure);
     header := {[ "Authorization" := "token " +:+ token ]};
     session := self.(session) |}.

(** Modelled from the spec: [ogr.services.pagure.project.PagureProject] is
    not among the sources; "a project handle keyed by (namespace, repo,
    username, is_fork)", of which [project_create] passes the first two and
    the service. *)
Record PagureProject : Type := mkPagureProject {
  repo : string;
  namespace : option string;
  service : PagureService
}.

(** [str(namespace)] inside an f-string, for an [Optional[str]]. *)
Definition str_of_opt (o : option string) : string :=
  match o with
  | Some s => s
  | None => "None"
  end.

(** The dictionary that [project_create] builds in lines 242 to 246. *)
Definition project_create_parameters (repo : string)
    (namespace description : option string) : dict :=
  let parameters : dict :=
    {[ "name" := VStr repo; "description" := of_opt_str description;
       "wait" := VBool true ]} in
  let parameters : dict :=
    if negb (str_truthy description) then <["description" := VStr repo]> parameters
    else parameters in
  match namespace with
  | Some ns => if str_truthy namespace then <["namespace" := VStr ns]> parameters
               else parameters
  | None => parameters
  end.

(** The condition of the [if] in the [except] clause of [project_create]:
    [ex.pagure_response and
     ex.pagure_response["errors"]["namespace"][0] == "Not a valid choice"]. *)
Definition invalid_namespace (ex : PagureAPIException) : result bool :=
  match ex.(pagure_response) with
  | Some resp =>
      if truthy resp then
        bind (getitem_str resp "errors") (λ errors,
        bind (getitem_str errors "namespace") (λ ns,
        bind (getitem_int ns 0) (λ first,
        Return (eq_str first "Not a valid choice"))))
      else Return false
  | None => Return false
  end.

(** [PagureService.project_create] *)
Definition project_create (self : PagureService) (repo : string)
    (namespace description : option string) : io PagureProject :=
  let request_url := get_api_url self [Some "new"] true in
  let parameters := project_create_parameters repo namespace description in
  match call_api self request_url (Some "POST") None (Some parameters) with
  | (reqs, Raise (EPagureAPI ex)) =>
      (reqs,
       bind (invalid_namespace ex) (λ invalid,
         if (invalid : bool) then
           Raise (EOgr ("Cannot create project in given namespace ("
                        +:+ str_of_opt namespace +:+ ")."))
         else Raise (EPagureAPI ex)))
  | (reqs, Raise e) => (reqs, Raise e)
  | (reqs, Return _) =>
      (reqs, Return {| repo := repo; namespace := namespace; service := self |})
  end.

(** ** Printing, comparing and the read-only endpoints *)

(** [str(b)] for a boolean, as an f-string renders it. *)
Definition str_of_bool (b : bool) : string := if b then "True" else "False".

(** [PagureService.__str__] *)
Definition __str__ (self : PagureService) : string :=
  let token_str :=
    match self.(_token) with
    | Some t => if str_truthy self.(_token) then ", token='" +:+ t +:+ "'" else ""
    | None => ""
    end in
  let str_result :=
    ("PagureService(instance_url='" +:+ self.(instance_url) +:+ "'")
    +:+ (token_str +:+ ", ")
    +:+ ("read_only=" +:+ str_of_bool self.(read_only) +:+ ", ")
    +:+ ("insecure=" +:+ str_of_bool self.(insecure) +:+ ")") in
  str_result.

(** What a service can be compared with: a service (of the class or of a
    subclass), or an object of another class. *)
Inductive object : Type :=
  | OService (o : PagureService)
  | OOther (v : value).

(** [PagureService.__eq__] *)
Definition __eq__ (self : PagureService) (o : object) : bool :=
  match o with
  | OOther _ => false
  | OService o =>
      bool_decide (self.(_token) = o.(_token))
      && bool_decide (self.(read_only) = o.(read_only))
      && bool_decide (self.(instance_url) = o.(instance_url))
      && bool_decide (self.(insecure) = o.(insecure))
      && bool_decide (self.(header) = o.(header))
  end.

(** [PagureService.__hash__], for the [hash] of strings that Python uses. *)
Definition __hash__ (hash : string → Z) (self : PagureService) : Z :=
  hash (__str__ self).

(** [PagureService.get_api_version] *)
Definition get_api_version (self : PagureService) : io value :=
  let request_url := get_api_url self [Some "version"] true in
  match call_api self request_url None None None with
  | (reqs, Raise e) => (reqs, Raise e)
  | (reqs, Return return_value) =>
      (reqs, getitem_str return_value "version")
  end.

(** [PagureService.get_error_codes] *)
Definition get_error_codes (self : PagureService) : io value :=
  let request_url := get_api_url self [Some "error_codes"] true in
  let return_value := call_api self request_url None None None in
  return_value.

(** ** The GitLab comment adapter *)

Module gitlab.

(** A [ProjectIssueNote] or [ProjectMergeRequestNote]: an object whose
    attributes are the fields of the note the server sent. *)
Record Note : Type := mkNote { attrs : gmap string value }.

(** [note.name]: an attribute that is missing raises [AttributeError]. *)
Definition getattr (note : Note) (name : string) : result value :=
  match note.(attrs) !! name with
  | Some v => Return v
  | None => Raise (EAttributeError name)
  end.

End gitlab.

(** The attributes [_from_raw_comment] sets on [self]; an attribute that has
    not been set is [None] here. *)
Record GitlabComment : Type := mkGitlabComment {
  __raw_comment : option gitlab.Note;
  comment : option value;
  author : option value;
  created : option value;
  edited : option value
}.

(** [GitlabCommentParser._from_raw_comment]: the object after the call, and
    the outcome.  The assignments run in order, so an exception leaves the
    attributes set so far. *)
Definition _from_raw_comment (self : GitlabComment) (raw_comment : gitlab.Note)
    : GitlabComment * result unit :=
  let self1 :=
    {| __raw_comment := Some raw_comment; comment := self.(comment);
       author := self.(author); created := self.(created);
       edited := self.(edited) |} in
  match gitlab.getattr raw_comment "body" with
  | Raise e => (self1, Raise e)
  | Return body =>
      let self2 :=
        {| __raw_comment := self1.(__raw_comment); comment := Some body;
           author := self1.(author); created := self1.(created);
           edited := self1.(edited) |} in
      match bind (gitlab.getattr raw_comment "author")
                 (λ a, getitem_str a "username") with
      | Raise e => (self2, Raise e)
      | Return username =>
          let self3 :=
            {| __raw_comment := self2.(__raw_comment); comment := self2.(comment);
               author := Some username; created := self2.(created);
               edited := self2.(edited) |} in
          match gitlab.getattr raw_comment "created_at" with
          | Raise e => (self3, Raise e)
          | Return created_at =>
              let self4 :=
                {| __raw_comment := self3.(__raw_comment);
                   comment := self3.(comment); author := self3.(author);
                   created := Some created_at; edited := self3.(edited) |} in
              match gitlab.getattr raw_comment "updated_at" with
              | Raise e => (self4, Raise e)
              | Return updated_at =>
                  ({| __raw_comment := self4.(__raw_comment);
                      comment := self4.(comment); author := self4.(author);
                      created := self4.(created); edited := Some updated_at |},
                   Return tt)
              end
          end
      end
  end.

(** ** Notions used in the statements *)

(** The request [call_api] sends: no explicit header, so the stored one. *)
Definition api_request (self : PagureService) (url : string)
    (method : option string) (params data : option dict) : requests.Request :=
  {| requests.method := method_or_GET method;
     requests.url := url;
     requests.params := params;
     requests.headers := self.(header);
     requests.data := data;
     requests.verify := negb self.(insecure) |}.

(** The wrapper [get_raw_request] builds around a response. *)
Definition wrap (response : requests.Response) : RequestResponse :=
  {| status_code := requests.status_code response;
     ok := requests.ok response;
     content := requests.content response;
     json_content := requests.json response;
     reason := requests.reason response |}.

(** The URL construction as the specification words it: segments that are
    absent or empty are skipped. *)
Fixpoint skip_empty_or_absent (args : list (option string)) : list string :=
  match args with
  | [] => []
  | None :: rest => skip_empty_or_absent rest
  | Some x :: rest =>
      if bool_decide (x = "") then skip_empty_or_absent rest
      else x :: skip_empty_or_absent rest
  end.

Definition get_api_url_spec (self : PagureService) (args : list (option string))
    (add_api_endpoint_part : bool) : string :=
  (if add_api_endpoint_part then self.(instance_url) +:+ "/api/0/"
   else self.(instance_url) +:+ "/")
  +:+ String.concat "/" (skip_empty_or_absent args).

(** ** The claims that do not hold as they are stated *)

(** C1 as it is stated: a body that is not JSON gives the decoding error at
    every status code. *)
Definition decode_failure_at_every_status : Prop :=
  ∀ (self : PagureService) (url : string) (method : option string)
    (params data : option dict) (response : requests.Response),
    self.(session) (api_request self url method params data) = Return response →
    requests.json response = None →
    outcome (call_api self url method params data)
    = Raise (EPagureAPI
        {| args := [AMsg [Lit "Error while decoding JSON: {0}"]];
           pagure_error := VNone;
           pagure_response := None |}).

(** C2 as it is stated: a successful response whose body decodes is returned
    as decoded. *)
Definition returns_every_decoded_body : Prop :=
  ∀ (self : PagureService) (url : string) (method : option string)
    (params data : option dict) (response : requests.Response) (j : value),
    self.(session) (api_request self url method params data) = Return response →
    requests.ok response = true →
    200 ≤ requests.status_code response < 300 →
    requests.json response = Some j →
    outcome (call_api self url method params data) = Return j.

(** C3 as it is stated: every 404 gives the not-found error, with some error
    message or none attached. *)
Definition not_found_at_every_404 : Prop :=
  ∀ (self : PagureService) (url : string) (method : option string)
    (params data : option dict) (response : requests.Response),
    self.(session) (api_request self url method params data) = Return response →
    requests.status_code response = 404 →
    ∃ error_msg : value,
      outcome (call_api self url method params data)
      = Raise (EPagureAPI
          {| args := [AMsg [Lit ("Page `" +:+ url
                                 +:+ "` not found when calling Pagure API.")]];
             pagure_error := error_msg;
             pagure_response := None |}).

(** C4 as it is stated: at every status that is neither 2xx nor 404, a body
    with an [error] field gives the API error that carries the field and the
    body. *)
Definition api_error_at_every_non_2xx : Prop :=
  ∀ (self : PagureService) (url : string) (method : option string)
    (params data : option dict) (response : requests.Response)
    (j : dict) (msg : value),
    self.(session) (api_request self url method params data) = Return response →
    ¬ (200 ≤ requests.status_code response < 300) →
    requests.status_code response ≠ 404 →
    requests.json response = Some (VDict j) →
    j !! "error" = Some msg →
    outcome (call_api self url method params data)
    = Raise (EPagureAPI
        {| args := [AMsg [Lit ("Pagure API returned an error when calling `"
                               +:+ url +:+ "`: ");
                          Fmt msg]];
           pagure_error := msg;
           pagure_response := Some (VDict j) |}).

(** C6 as it is stated: the built URL is the root followed by the segments
    that are neither absent nor empty, joined with [/]. *)
Definition url_skips_empty_and_absent : Prop :=
  ∀ (self : PagureService) (args : list (option string)) (add : bool),
    get_api_url self args add = get_api_url_spec self args add.

(** C10 as it is stated: without a description the request carries the name
    of the repository as description, and that description is not empty. *)
Definition description_never_empty : Prop :=
  ∀ (self : PagureService) (repo : string) (namespace description : option string),
    description = None ∨ description = Some "" →
    ∃ (request : requests.Request) (parameters : dict),
      sent (project_create self repo namespace description) = [request]
      ∧ requests.data request = Some parameters
      ∧ parameters !! "description" = Some (VStr repo)
      ∧ parameters !! "description" ≠ Some (VStr "").

(** ** Forges to run the client against *)

(** A session that answers every request with the same response. *)
Definition answering (response : requests.Response)
    : requests.Request → result requests.Response :=
  λ _, Return response.

Definition pagure_io (session : requests.Request → result requests.Response)
    : PagureService :=
  PagureService_init (Some "secret") "https://pagure.io" false false session.

(** 404 with an HTML page as the body. *)
Definition html_404 : requests.Response :=
  {| requests.status_code := 404;
     requests.ok := false;
     requests.content := String.list_byte_of_string "<html>Not Found</html>";
     requests.text := "<html>Not Found</html>";
     requests.reason := "NOT FOUND";
     requests.json := None |}.

(** 200 with a file as the body. *)
Definition plain_200 : requests.Response :=
  {| requests.status_code := 200;
     requests.ok := true;
     requests.content := String.list_byte_of_string "This is a testing repo";
     requests.text := "This is a testing repo";
     requests.reason := "OK";
     requests.json := None |}.

(** 200 with the empty JSON object as the body. *)
Definition empty_object_200 : requests.Response :=
  {| requests.status_code := 200;
     requests.ok := true;
     requests.content := String.list_byte_of_string "{}";
     requests.text := "{}";
     requests.reason := "OK";
     requests.json := Some (VDict ∅) |}.

(** 200 with the version of the API. *)
Definition version_200 : requests.Response :=
  {| requests.status_code := 200;
     requests.ok := true;
     requests.content := String.list_byte_of_string "{'version': '0.29'}";
     requests.text := "{'version': '0.29'}";
     requests.reason := "OK";
     requests.json := Some (VDict {[ "version" := VStr "0.29" ]}) |}.

(** 404 with the error of a project that does not exist. *)
Definition project_404_body : dict :=
  {[ "error" := VStr "Project not found"; "error_code" := VStr "ENOPROJECT" ]}.

Definition project_404 : requests.Response :=
  {| requests.status_code := 404;
     requests.ok := false;
     requests.content := [];
     requests.text := "";
     requests.reason := "NOT FOUND";
     requests.json := Some (VDict project_404_body) |}.

(** 401 with the error of a token that is not valid. *)
Definition token_401_body : dict :=
  {[ "error" := VStr "Invalid or expired token";
     "error_code" := VStr "EINVALIDTOK" ]}.

Definition token_401 : requests.Response :=
  {| requests.status_code := 401;
     requests.ok := false;
     requests.content := [];
     requests.text := "";
     requests.reason := "UNAUTHORIZED";
     requests.json := Some (VDict token_401_body) |}.

(** 400 with the error of a namespace that cannot be chosen. *)
Definition namespace_400_body : dict :=
  {[ "error" := VStr "Invalid or incomplete input submitted";
     "error_code" := VStr "EINVALIDREQ";
     "errors" :=
       VDict {[ "namespace" := VList [VStr "Not a valid choice"] ]} ]}.

Definition namespace_400 : requests.Response :=
  {| requests.status_code := 400;
     requests.ok := false;
     requests.content := [];
     requests.text := "";
     requests.reason := "BAD REQUEST";
     requests.json := Some (VDict namespace_400_body) |}.

(** A note as the GitLab client returns it. *)
Definition hi_note : gitlab.Note :=
  {| gitlab.attrs :=
       {[ "id" := VInt 1;
          "body" := VStr "hi";
          "author" := VDict {[ "username" := VStr "x"; "id" := VInt 7 ]};
          "created_at" := VStr "2019-09-12T09:05:27.000Z";
          "updated_at" := VStr "2019-09-13T10:00:00.000Z" ]} |}.

Definition blank_comment : GitlabComment :=
  {| __raw_comment := None; comment := None; author := None;
     created := None; edited := None |}.

(** A session that cannot reach the forge. *)
Definition unreachable (er : string) : requests.Request → result requests.Response :=
  λ _, Raise (EConnectionError er).

(** A session that fails in another way, a timeout for instance. *)
Definition failing (er : string) : requests.Request → result requests.Response :=
  λ _, Raise (EOther er).

(** 500 with a JSON body that has no [error] field. *)
Definition broken_500 : requests.Response :=
  {| requests.status_code := 500;
     requests.ok := false;
     requests.content := [];
     requests.text := "";
     requests.reason := "INTERNAL SERVER ERROR";
     requests.json := Some (VDict {[ "message" := VStr "oops" ]}) |}.

(** 200 with the answer to a creation. *)
Definition created_200 : requests.Response :=
  {| requests.status_code := 200;
     requests.ok := true;
     requests.content := [];
     requests.text := "";
     requests.reason := "OK";
     requests.json := Some (VDict {[ "message" := VStr "Project created" ]}) |}.

(** 404 with a JSON list as the body. *)
Definition list_404 : requests.Response :=
  {| requests.status_code := 404;
     requests.ok := false;
     requests.content := [];
     requests.text := "";
     requests.reason := "NOT FOUND";
     requests.json := Some (VList [VStr "error"]) |}.

(** 301 that the HTTP library flags as successful, with an error as the
    body. *)
Definition moved_301 : requests.Response :=
  {| requests.status_code := 301;
     requests.ok := true;
     requests.content := [];
     requests.text := "";
     requests.reason := "MOVED PERMANENTLY";
     requests.json := Some (VDict {[ "error" := VStr "Moved" ]}) |}.

(** 500 with a JSON string as the body. *)
Definition string_500 : requests.Response :=
  {| requests.status_code := 500;
     requests.ok := false;
     requests.content := [];
     requests.text := "";
     requests.reason := "INTERNAL SERVER ERROR";
     requests.json := Some (VStr "Internal server error") |}.

(** 200 with a JSON list as the body. *)
Definition list_200 : requests.Response :=
  {| requests.status_code := 200;
     requests.ok := true;
     requests.content := [];
     requests.text := "";
     requests.reason := "OK";
     requests.json := Some (VList [VStr "0.29"]) |}.


(** ** The checked call *)

Section CheckedCall.

Variables (self : PagureService) (url : string) (method : option string).
Variables (params data : option dict).

(** [call_api] sends one request, whatever comes back. *)
Lemma call_api_sent :
  sent (call_api self url method params data)
  = [api_request self url method params data].
Proof.
  unfold call_api, call_api_raw, get_raw_request, api_request, header_or.
  destruct (session self _) as [response|e]; [reflexivity|].
  destruct e; reflexivity.
Qed.

(** Once the forge has answered, the outcome is decided by the checks. *)
Lemma call_api_responded (response : requests.Response) :
  self.(session) (api_request self url method params data) = Return response →
  call_api self url method params data
  = ([api_request self url method params data],
     check_response url (wrap response)).
Proof.
  intros Hanswer.
  unfold call_api, call_api_raw, get_raw_request, header_or.
  fold (api_request self url method params data).
  rewrite Hanswer. reflexivity.
Qed.

End CheckedCall.

(** The values that are false: [None], [False], the two zeros of the
    numbers, and the empty string, list and dictionary. *)
Lemma truthy_false_iff (v : value) :
  truthy v = false
  ↔ v = VNone ∨ v = VBool false ∨ v = VInt 0
    ∨ (∃ sign : bool, v = VFloat (S754_zero sign))
    ∨ v = VStr "" ∨ v = VList [] ∨ v = VDict ∅.
Proof.
  split.
  - destruct v as [|b|n|f|s|l|m]; simpl; intros Hfalse.
    + by left.
    + subst. by right; left.
    + apply negb_false_iff, bool_decide_eq_true in Hfalse. subst.
      by right; right; left.
    + destruct f; try discriminate. right; right; right; left. by eexists.
    + apply negb_false_iff, bool_decide_eq_true in Hfalse. subst.
      by right; right; right; right; left.
    + destruct l; [|discriminate]. by right; right; right; right; right; left.
    + apply negb_false_iff, bool_decide_eq_true in Hfalse. subst.
      by right; right; right; right; right; right.
  - intros [-> | [-> | [-> | [[sign ->] | [-> | [-> | ->]]]]]]; reflexivity.
Qed.

Lemma truthy_dict_ne (j : dict) : j ≠ ∅ → truthy (VDict j) = true.
Proof.
  intros Hne. simpl. rewrite bool_decide_eq_false_2; done.
Qed.

Lemma truthy_dict_lookup (j : dict) (k : string) (v : value) :
  j !! k = Some v → truthy (VDict j) = true.
Proof.
  intros Hk. apply truthy_dict_ne. intros ->. by rewrite lookup_empty in Hk.
Qed.

Lemma contains_dict_lookup (j : dict) (k : string) (v : value) :
  j !! k = Some v →
  contains k (VDict j) = Return true ∧ getitem_str (VDict j) k = Return v.
Proof.
  intros Hk. simpl. rewrite Hk. split; [|done].
  rewrite bool_decide_eq_true_2; [done|]. by eexists.
Qed.

Lemma contains_dict_absent (j : dict) (k : string) :
  j !! k = None → contains k (VDict j) = Return false.
Proof.
  intros Hk. simpl. rewrite Hk.
  rewrite bool_decide_eq_false_2; [done|]. by intros [? ?].
Qed.

(** The checks on a 404 whose body decodes to an object: the error of the
    body, if it has one. *)
Lemma check_response_404_dict (url : string) (response : RequestResponse) (j : dict) :
  response.(status_code) = 404 →
  response.(json_content) = Some (VDict j) →
  check_response url response
  = Raise (EPagureAPI
      {| args := [AMsg [Lit ("Page `" +:+ url
                             +:+ "` not found when calling Pagure API.")]];
         pagure_error := default VNone (j !! "error");
         pagure_response := None |}).
Proof.
  intros H404 Hjson. unfold check_response.
  rewrite bool_decide_eq_true_2 by done. rewrite Hjson.
  destruct (j !! "error") as [msg|] eqn:Hmsg.
  - rewrite (truthy_dict_lookup _ _ _ Hmsg).
    destruct (contains_dict_lookup _ _ _ Hmsg) as [-> ->]. reflexivity.
  - rewrite (contains_dict_absent _ _ Hmsg).
    by destruct (truthy (VDict j)).
Qed.

(** The checks on a 404 without a body, or with a body that is false. *)
Lemma check_response_404_falsy (url : string) (response : RequestResponse) :
  response.(status_code) = 404 →
  (response.(json_content) = None
   ∨ ∃ v : value, response.(json_content) = Some v ∧ truthy v = false) →
  check_response url response
  = Raise (EPagureAPI
      {| args := [AMsg [Lit ("Page `" +:+ url
                             +:+ "` not found when calling Pagure API.")]];
         pagure_error := VNone;
         pagure_response := None |}).
Proof.
  intros H404 Hbody. unfold check_response.
  rewrite bool_decide_eq_true_2 by done.
  destruct Hbody as [-> | (v & -> & ->)]; reflexivity.
Qed.

(** The checks on a body that is missing or false, away from 404. *)
Lemma check_response_decode (url : string) (response : RequestResponse) :
  response.(status_code) ≠ 404 →
  (response.(json_content) = None
   ∨ ∃ v : value, response.(json_content) = Some v ∧ truthy v = false) →
  check_response url response
  = Raise (EPagureAPI
      {| args := [AMsg [Lit "Error while decoding JSON: {0}"]];
         pagure_error := VNone;
         pagure_response := None |}).
Proof.
  intros H404 Hbody. unfold check_response.
  rewrite bool_decide_eq_false_2 by done.
  destruct Hbody as [-> | (v & -> & ->)]; reflexivity.
Qed.

(** The checks let a body through that is true, when the response is flagged
    successful and is not a 404. *)
Lemma check_response_ok (url : string) (response : RequestResponse) (j : value) :
  response.(status_code) ≠ 404 →
  response.(ok) = true →
  response.(json_content) = Some j →
  truthy j = true →
  check_response url response = Return j.
Proof.
  intros H404 Hok Hjson Htrue. unfold check_response.
  rewrite bool_decide_eq_false_2 by done.
  by rewrite Hjson, Htrue, Hok.
Qed.

(** The checks on an error of the API that comes with a message. *)
Lemma check_response_error (url : string) (response : RequestResponse) (j : dict)
    (msg : value) :
  response.(status_code) ≠ 404 →
  response.(ok) = false →
  response.(json_content) = Some (VDict j) →
  j !! "error" = Some msg →
  check_response url response
  = Raise (EPagureAPI
      {| args := [AMsg [Lit ("Pagure API returned an error when calling `"
                             +:+ url +:+ "`: ");
                        Fmt msg]];
         pagure_error := msg;
         pagure_response := Some (VDict j) |}).
Proof.
  intros H404 Hok Hjson Hmsg. unfold check_response.
  rewrite bool_decide_eq_false_2 by done.
  rewrite Hjson, (truthy_dict_lookup _ _ _ Hmsg), Hok. simpl negb. cbv iota.
  destruct (contains_dict_lookup _ _ _ Hmsg) as [-> ->]. reflexivity.
Qed.

(** C1, as stated, fails: for a 404 whose body is an HTML page the checked
    call raises the not-found error, whose message differs from the decoding
    error. *)
Lemma decode_failure_not_at_404 : ¬ decode_failure_at_every_status.
Proof.
  intros Hclaim.
  specialize (Hclaim (pagure_io (answering html_404)) "https://pagure.io/api/0/x"
                     None None None html_404 eq_refl eq_refl).
  vm_compute in Hclaim. discriminate Hclaim.
Qed.

(** C1, amended: for every response whose body is not JSON, the checked call
    raises the decoding error when the status is not 404, the successful
    statuses included, and the not-found error, with no error of the forge
    attached, when the status is 404. *)
Theorem call_api_decode_failure (self : PagureService) (url : string)
    (method : option string) (params data : option dict)
    (response : requests.Response) :
  self.(session) (api_request self url method params data) = Return response →
  requests.json response = None →
  (requests.status_code response ≠ 404 →
   outcome (call_api self url method params data)
   = Raise (EPagureAPI
       {| args := [AMsg [Lit "Error while decoding JSON: {0}"]];
          pagure_error := VNone;
          pagure_response := None |}))
  ∧ (requests.status_code response = 404 →
     outcome (call_api self url method params data)
     = Raise (EPagureAPI
         {| args := [AMsg [Lit ("Page `" +:+ url
                                +:+ "` not found when calling Pagure API.")]];
            pagure_error := VNone;
            pagure_response := None |})).
Proof.
  intros Hanswer Hjson.
  rewrite (call_api_responded _ _ _ _ _ _ Hanswer). unfold outcome; simpl.
  split; intros H404.
  - apply check_response_decode; [done|]. by left.
  - apply check_response_404_falsy; [done|]. by left.
Qed.

Lemma call_api_decode_failure_witness :
  outcome (call_api (pagure_io (answering plain_200))
                    "https://pagure.io/ogr-tests/raw/master/f/README.rst"
                    None None None)
  = Raise (EPagureAPI
      {| args := [AMsg [Lit "Error while decoding JSON: {0}"]];
         pagure_error := VNone;
         pagure_response := None |})
  ∧ outcome (call_api (pagure_io (answering html_404))
                      "https://pagure.io/api/0/nothing" None None None)
    = Raise (EPagureAPI
        {| args := [AMsg [Lit ("Page `" +:+ "https://pagure.io/api/0/nothing"
                               +:+ "` not found when calling Pagure API.")]];
           pagure_error := VNone;
           pagure_response := None |}).
Proof.
  split.
  - apply (proj1 (call_api_decode_failure (pagure_io (answering plain_200))
                    "https://pagure.io/ogr-tests/raw/master/f/README.rst"
                    None None None plain_200 eq_refl eq_refl)).
    vm_compute. discriminate.
  - apply (proj2 (call_api_decode_failure (pagure_io (answering html_404))
                    "https://pagure.io/api/0/nothing"
                    None None None html_404 eq_refl eq_refl)).
    reflexivity.
Defined.

(** C2, as stated, fails: a 200 whose body is the empty JSON object decodes,
    and the checked call raises the decoding error. *)
Lemma empty_object_not_returned : ¬ returns_every_decoded_body.
Proof.
  intros Hclaim.
  specialize (Hclaim (pagure_io (answering empty_object_200))
                     "https://pagure.io/api/0/x" None None None
                     empty_object_200 (VDict ∅) eq_refl eq_refl).
  assert (Hraise : outcome (call_api (pagure_io (answering empty_object_200))
                     "https://pagure.io/api/0/x" None None None)
                   = Raise (EPagureAPI
                       {| args := [AMsg [Lit "Error while decoding JSON: {0}"]];
                          pagure_error := VNone;
                          pagure_response := None |}))
    by (vm_compute; reflexivity).
  rewrite Hraise in Hclaim.
  assert (Hret : Raise (EPagureAPI
                   {| args := [AMsg [Lit "Error while decoding JSON: {0}"]];
                      pagure_error := VNone;
                      pagure_response := None |})
                 = Return (VDict ∅)).
  { apply Hclaim; [|reflexivity]. simpl. lia. }
  discriminate Hret.
Qed.

(** C2, amended: for every successful (2xx) response whose body decodes to a
    value that is true (an object, a list or a string that is not empty, a
    number that is not zero, [true]) the checked call returns exactly the
    decoded body; when the body decodes to a value that is false (the empty
    object, list or string, zero, [false], [null]) and the status is not 404,
    the checked call raises the decoding error. *)
Theorem call_api_returns_body (self : PagureService) (url : string)
    (method : option string) (params data : option dict)
    (response : requests.Response) (j : value) :
  self.(session) (api_request self url method params data) = Return response →
  requests.json response = Some j →
  (requests.ok response = true →
   200 ≤ requests.status_code response < 300 →
   truthy j = true →
   outcome (call_api self url method params data) = Return j)
  ∧ (requests.status_code response ≠ 404 →
     truthy j = false →
     outcome (call_api self url method params data)
     = Raise (EPagureAPI
         {| args := [AMsg [Lit "Error while decoding JSON: {0}"]];
            pagure_error := VNone;
            pagure_response := None |})).
Proof.
  intros Hanswer Hjson.
  rewrite (call_api_responded _ _ _ _ _ _ Hanswer). unfold outcome; simpl.
  split.
  - intros Hok H2xx Htrue. apply check_response_ok; try done. simpl. lia.
  - intros H404 Hfalse. apply check_response_decode; [done|]. right. eauto.
Qed.

Lemma call_api_returns_body_witness :
  outcome (call_api (pagure_io (answering version_200))
                    "https://pagure.io/api/0/version" None None None)
  = Return (VDict {[ "version" := VStr "0.29" ]})
  ∧ outcome (call_api (pagure_io (answering empty_object_200))
                      "https://pagure.io/api/0/version" None None None)
    = Raise (EPagureAPI
        {| args := [AMsg [Lit "Error while decoding JSON: {0}"]];
           pagure_error := VNone;
           pagure_response := None |}).
Proof.
  split.
  - apply (proj1 (call_api_returns_body (pagure_io (answering version_200))
                    "https://pagure.io/api/0/version" None None None
                    version_200 (VDict {[ "version" := VStr "0.29" ]})
                    eq_refl eq_refl)).
    + reflexivity.
    + simpl. lia.
    + vm_compute. reflexivity.
  - apply (proj2 (call_api_returns_body (pagure_io (answering empty_object_200))
                    "https://pagure.io/api/0/version" None None None
                    empty_object_200 (VDict ∅) eq_refl eq_refl)).
    + vm_compute. discriminate.
    + vm_compute. reflexivity.
Defined.

(** C3, as stated, fails: for a 404 whose body is the JSON list [["error"]]
    the checked call raises [TypeError], the list having no string index, and
    not the not-found error. *)
Lemma not_found_not_at_list_404 : ¬ not_found_at_every_404.
Proof.
  intros Hclaim.
  destruct (Hclaim (pagure_io (answering list_404)) "https://pagure.io/api/0/x"
                   None None None list_404 eq_refl eq_refl) as [error_msg Hraise].
  vm_compute in Hraise. discriminate Hraise.
Qed.

(** C3, amended: for every response with status 404 whose body is not JSON,
    or decodes to a value that is false, or decodes to a JSON object, the
    checked call raises the not-found error; when the object has an [error]
    field, its value is the [pagure_error] of the exception, and in every
    other of these cases the [pagure_error] is [None]. *)
Theorem call_api_not_found (self : PagureService) (url : string)
    (method : option string) (params data : option dict)
    (response : requests.Response) :
  self.(session) (api_request self url method params data) = Return response →
  requests.status_code response = 404 →
  (∀ (j : dict) (msg : value),
     requests.json response = Some (VDict j) → j !! "error" = Some msg →
     outcome (call_api self url method params data)
     = Raise (EPagureAPI
         {| args := [AMsg [Lit ("Page `" +:+ url
                                +:+ "` not found when calling Pagure API.")]];
            pagure_error := msg;
            pagure_response := None |}))
  ∧ ((requests.json response = None
      ∨ (∃ v : value, requests.json response = Some v ∧ truthy v = false)
      ∨ ∃ j : dict, requests.json response = Some (VDict j) ∧ j !! "error" = None) →
     outcome (call_api self url method params data)
     = Raise (EPagureAPI
         {| args := [AMsg [Lit ("Page `" +:+ url
                                +:+ "` not found when calling Pagure API.")]];
            pagure_error := VNone;
            pagure_response := None |})).
Proof.
  intros Hanswer H404.
  rewrite (call_api_responded _ _ _ _ _ _ Hanswer). unfold outcome; simpl.
  split.
  - intros j msg Hjson Hmsg.
    rewrite (check_response_404_dict _ (wrap response) j) by done.
    by rewrite Hmsg.
  - intros [Hnone | [Hfalse | (j & Hjson & Hmsg)]].
    + apply check_response_404_falsy; [done|]. by left.
    + apply check_response_404_falsy; [done|]. by right.
    + rewrite (check_response_404_dict _ (wrap response) j) by done.
      by rewrite Hmsg.
Qed.

Lemma call_api_not_found_witness :
  outcome (call_api (pagure_io (answering project_404))
                    "https://pagure.io/api/0/fork/nobody/ogr-tests" None None None)
  = Raise (EPagureAPI
      {| args := [AMsg [Lit ("Page `"
                             +:+ "https://pagure.io/api/0/fork/nobody/ogr-tests"
                             +:+ "` not found when calling Pagure API.")]];
         pagure_error := VStr "Project not found";
         pagure_response := None |})
  ∧ outcome (call_api (pagure_io (answering html_404))
                      "https://pagure.io/api/0/nothing" None None None)
    = Raise (EPagureAPI
        {| args := [AMsg [Lit ("Page `" +:+ "https://pagure.io/api/0/nothing"
                               +:+ "` not found when calling Pagure API.")]];
           pagure_error := VNone;
           pagure_response := None |}).
Proof.
  split.
  - apply (call_api_not_found (pagure_io (answering project_404))
             "https://pagure.io/api/0/fork/nobody/ogr-tests" None None None
             project_404 eq_refl eq_refl)
      with (j := project_404_body); reflexivity.
  - apply (call_api_not_found (pagure_io (answering html_404))
             "https://pagure.io/api/0/nothing" None None None
             html_404 eq_refl eq_refl).
    left. reflexivity.
Defined.

(** C4, as stated, fails: a 301 is neither 2xx nor 404, the HTTP library
    flags it as successful, and the checked call returns its body, [error]
    field and all, where the claim has it raise. *)
Lemma api_error_not_at_301 : ¬ api_error_at_every_non_2xx.
Proof.
  intros Hclaim.
  assert (Hraise := Hclaim (pagure_io (answering moved_301))
                      "https://pagure.io/api/0/x" None None None moved_301
                      {[ "error" := VStr "Moved" ]} (VStr "Moved") eq_refl).
  assert (Hreturn : outcome (call_api (pagure_io (answering moved_301))
                      "https://pagure.io/api/0/x" None None None)
                    = Return (VDict {[ "error" := VStr "Moved" ]}))
    by (vm_compute; reflexivity).
  rewrite Hreturn in Hraise.
  assert (Hfalse : Return (VDict {[ "error" := VStr "Moved" ]})
                   = Raise (EPagureAPI
                       {| args := [AMsg [Lit ("Pagure API returned an error when calling `"
                                              +:+ "https://pagure.io/api/0/x" +:+ "`: ");
                                         Fmt (VStr "Moved")]];
                          pagure_error := VStr "Moved";
                          pagure_response := Some (VDict {[ "error" := VStr "Moved" ]}) |})).
  { apply Hraise.
    - simpl. lia.
    - vm_compute. discriminate.
    - reflexivity.
    - reflexivity. }
  discriminate Hfalse.
Qed.

(** C4, amended: for every response that the HTTP library flags as not
    successful (its [ok] is false) and whose status is not 404, whose body
    decodes to a JSON object with an [error] field, the checked call raises
    the API error whose message ends with that error, whose [pagure_error]
    is that error and whose [pagure_response] is the whole decoded body. *)
Theorem call_api_error_payload (self : PagureService) (url : string)
    (method : option string) (params data : option dict)
    (response : requests.Response) (j : dict) (msg : value) :
  self.(session) (api_request self url method params data) = Return response →
  requests.status_code response ≠ 404 →
  requests.ok response = false →
  requests.json response = Some (VDict j) →
  j !! "error" = Some msg →
  outcome (call_api self url method params data)
  = Raise (EPagureAPI
      {| args := [AMsg [Lit ("Pagure API returned an error when calling `"
                             +:+ url +:+ "`: ");
                        Fmt msg]];
         pagure_error := msg;
         pagure_response := Some (VDict j) |}).
Proof.
  intros Hanswer H404 Hok Hjson Hmsg.
  rewrite (call_api_responded _ _ _ _ _ _ Hanswer). unfold outcome; simpl.
  by apply check_response_error.
Qed.

Lemma call_api_error_payload_witness :
  outcome (call_api (pagure_io (answering token_401))
                    "https://pagure.io/api/0/new" (Some "POST") None None)
  = Raise (EPagureAPI
      {| args := [AMsg [Lit ("Pagure API returned an error when calling `"
                             +:+ "https://pagure.io/api/0/new" +:+ "`: ");
                        Fmt (VStr "Invalid or expired token")]];
         pagure_error := VStr "Invalid or expired token";
         pagure_response := Some (VDict token_401_body) |}).
Proof.
  apply (call_api_error_payload _ _ _ _ _ token_401).
  - reflexivity.
  - vm_compute. discriminate.
  - reflexivity.
  - reflexivity.
  - reflexivity.
Defined.

(** ** Project creation *)

(** How the [except] clause of [project_create] treats an API error. *)
Lemma project_create_except (self : PagureService) (repo : string)
    (namespace description : option string)
    (reqs : list requests.Request) (ex : PagureAPIException) :
  call_api self (get_api_url self [Some "new"] true) (Some "POST") None
    (Some (project_create_parameters repo namespace description))
  = (reqs, Raise (EPagureAPI ex)) →
  outcome (project_create self repo namespace description)
  = bind (invalid_namespace ex) (λ invalid : bool,
      if invalid then
        Raise (EOgr ("Cannot create project in given namespace ("
                     +:+ str_of_opt namespace +:+ ")."))
      else Raise (EPagureAPI ex)).
Proof.
  intros Hcall. unfold project_create. rewrite Hcall. reflexivity.
Qed.

(** The namespace that cannot be chosen becomes the error of the domain. *)
Lemma project_create_invalid_namespace (self : PagureService) (repo : string)
    (namespace description : option string)
    (reqs : list requests.Request) (ex : PagureAPIException)
    (resp errors : dict) (rest : list value) :
  call_api self (get_api_url self [Some "new"] true) (Some "POST") None
    (Some (project_create_parameters repo namespace description))
  = (reqs, Raise (EPagureAPI ex)) →
  ex.(pagure_response) = Some (VDict resp) →
  resp !! "errors" = Some (VDict errors) →
  errors !! "namespace" = Some (VList (VStr "Not a valid choice" :: rest)) →
  outcome (project_create self repo namespace description)
  = Raise (EOgr ("Cannot create project in given namespace ("
                 +:+ str_of_opt namespace +:+ ").")).
Proof.
  intros Hcall Hresp Herrors Hns.
  rewrite (project_create_except _ _ _ _ _ _ Hcall).
  unfold invalid_namespace. rewrite Hresp, (truthy_dict_lookup _ _ _ Herrors).
  simpl. rewrite Herrors. simpl. rewrite Hns. reflexivity.
Qed.

(** An API error whose body has no [errors] field does not come through: the
    subscript of the [except] clause raises [KeyError]. *)
Lemma project_create_no_errors_field (self : PagureService) (repo : string)
    (namespace description : option string)
    (reqs : list requests.Request) (ex : PagureAPIException) (resp : dict) :
  call_api self (get_api_url self [Some "new"] true) (Some "POST") None
    (Some (project_create_parameters repo namespace description))
  = (reqs, Raise (EPagureAPI ex)) →
  ex.(pagure_response) = Some (VDict resp) →
  resp ≠ ∅ →
  resp !! "errors" = None →
  outcome (project_create self repo namespace description)
  = Raise (EKeyError (VStr "errors")).
Proof.
  intros Hcall Hresp Hne Herrors.
  rewrite (project_create_except _ _ _ _ _ _ Hcall).
  unfold invalid_namespace. rewrite Hresp, (truthy_dict_ne _ Hne).
  simpl. rewrite Herrors. reflexivity.
Qed.

(** C5, where the code departs from it: the forge refuses the creation with
    401 and the body [{"error": "Invalid or expired token", "error_code":
    "EINVALIDTOK"}].  The checked call raises the API error with that body,
    and [project_create] raises [KeyError('errors')] in its place; for the
    body of a namespace that cannot be chosen it does raise the error of the
    domain. *)
Theorem project_create_loses_api_error :
  outcome (call_api (pagure_io (answering token_401))
             "https://pagure.io/api/0/new" (Some "POST") None
             (Some (project_create_parameters "new-ogr-testing-repo" None None)))
  = Raise (EPagureAPI
      {| args := [AMsg [Lit ("Pagure API returned an error when calling `"
                             +:+ "https://pagure.io/api/0/new" +:+ "`: ");
                        Fmt (VStr "Invalid or expired token")]];
         pagure_error := VStr "Invalid or expired token";
         pagure_response := Some (VDict token_401_body) |})
  ∧ outcome (project_create (pagure_io (answering token_401))
               "new-ogr-testing-repo" None None)
    = Raise (EKeyError (VStr "errors"))
  ∧ outcome (project_create (pagure_io (answering namespace_400))
               "new-ogr-testing-repo" (Some "nonexisting") None)
    = Raise (EOgr "Cannot create project in given namespace (nonexisting).").
Proof.
  split; [|split].
  - vm_compute. reflexivity.
  - apply (project_create_no_errors_field _ _ _ _
             [api_request (pagure_io (answering token_401))
                "https://pagure.io/api/0/new" (Some "POST") None
                (Some (project_create_parameters "new-ogr-testing-repo" None None))]
             {| args := [AMsg [Lit ("Pagure API returned an error when calling `"
                                    +:+ "https://pagure.io/api/0/new" +:+ "`: ");
                               Fmt (VStr "Invalid or expired token")]];
                pagure_error := VStr "Invalid or expired token";
                pagure_response := Some (VDict token_401_body) |}
             token_401_body).
    + vm_compute. reflexivity.
    + reflexivity.
    + vm_compute. discriminate.
    + vm_compute. reflexivity.
  - vm_compute. reflexivity.
Qed.

(** ** URL construction *)

Lemma string_app_assoc (s t u : string) : (s +:+ t) +:+ u = s +:+ (t +:+ u).
Proof.
  induction s as [|c s IH]; [reflexivity|].
  change (String c ((s +:+ t) +:+ u) = String c (s +:+ (t +:+ u))).
  f_equal. exact IH.
Qed.

Lemma filter_not_None_app (xs ys : list (option string)) :
  filter_not_None (xs ++ ys) = filter_not_None xs ++ filter_not_None ys.
Proof.
  induction xs as [|[x|] xs IH]; simpl; [done| |done]. by rewrite IH.
Qed.

Lemma filter_not_None_Some (l : list string) : filter_not_None (Some <$> l) = l.
Proof.
  induction l as [|x l IH]; [done|].
  rewrite fmap_cons. simpl. f_equal. exact IH.
Qed.

Lemma skip_empty_or_absent_filter (args : list (option string)) :
  Some "" ∉ args → skip_empty_or_absent args = filter_not_None args.
Proof.
  induction args as [|[x|] args IH]; intros Hnot; simpl; [done| |].
  - apply not_elem_of_cons in Hnot as [Hx Hnot].
    rewrite bool_decide_eq_false_2 by congruence.
    f_equal. by apply IH.
  - apply not_elem_of_cons in Hnot as [_ Hnot]. by apply IH.
Qed.

(** C6, as stated, fails: an empty segment is kept, and the URL gets a double
    slash. *)
Lemma empty_segment_kept : ¬ url_skips_empty_and_absent.
Proof.
  intros Hclaim.
  specialize (Hclaim (pagure_io (answering plain_200))
                     [Some "a"; Some ""; Some "b"] true).
  vm_compute in Hclaim. discriminate Hclaim.
Qed.

(** C6, amended: the built URL joins the segments with [/] behind the
    instance URL and, when asked for, the API root; the segments that are
    [None] are skipped wherever they stand, and every other segment, the
    empty string included, is joined as it is, so that ["a", "", "b"] gives
    [{instance_url}/api/0/a//b]; for ["a", None, "b"] with the API root the
    result is [{instance_url}/api/0/a/b]; when no segment is the empty string
    the URL is the one the specification describes. *)
Theorem get_api_url_skips_None (self : PagureService) (add : bool) :
  (∀ xs ys : list (option string),
     get_api_url self (xs ++ None :: ys) add = get_api_url self (xs ++ ys) add)
  ∧ (∀ l : list string,
       get_api_url self (Some <$> l) add
       = (if add then self.(instance_url) +:+ "/api/0/"
          else self.(instance_url) +:+ "/") +:+ String.concat "/" l)
  ∧ get_api_url self [Some "a"; None; Some "b"] true
    = self.(instance_url) +:+ "/api/0/a/b"
  ∧ (∀ args : list (option string),
       Some "" ∉ args →
       get_api_url self args add = get_api_url_spec self args add)
  ∧ (∀ xs ys : list (option string),
       get_api_url self (xs ++ Some "" :: ys) add
       = (if add then self.(instance_url) +:+ "/api/0/"
          else self.(instance_url) +:+ "/")
         +:+ String.concat "/" (filter_not_None xs ++ "" :: filter_not_None ys))
  ∧ get_api_url self [Some "a"; Some ""; Some "b"] true
    = self.(instance_url) +:+ "/api/0/a//b".
Proof.
  split; [|split; [|split; [|split; [|split]]]].
  - intros xs ys. unfold get_api_url.
    rewrite !filter_not_None_app. reflexivity.
  - intros l. unfold get_api_url, api_url. simpl.
    rewrite filter_not_None_Some. by destruct add.
  - unfold get_api_url, api_url. simpl. by rewrite string_app_assoc.
  - intros args Hnot. unfold get_api_url, get_api_url_spec, api_url. simpl.
    rewrite (skip_empty_or_absent_filter _ Hnot). by destruct add.
  - intros xs ys. unfold get_api_url, api_url. simpl.
    rewrite filter_not_None_app. simpl. by destruct add.
  - unfold get_api_url, api_url. simpl. by rewrite string_app_assoc.
Qed.

Lemma get_api_url_skips_None_witness :
  (Some "" ∉ [Some "projects"; None; Some "git"; Some "urls"])
  ∧ get_api_url (pagure_io (answering plain_200))
      [Some "projects"; None; Some "git"; Some "urls"] true
    = get_api_url_spec (pagure_io (answering plain_200))
        [Some "projects"; None; Some "git"; Some "urls"] true.
Proof.
  assert (Hnot : Some "" ∉ [Some "projects"; None; Some "git"; Some "urls"]).
  { rewrite !not_elem_of_cons. repeat split; try discriminate.
    apply not_elem_of_nil. }
  split; [exact Hnot|].
  exact (proj1 (proj2 (proj2 (proj2
    (get_api_url_skips_None (pagure_io (answering plain_200)) true)))) _ Hnot).
Defined.

(** ** Token rotation *)

(** C7: after [change_token] the stored header is exactly
    [{"Authorization": "token " + token}], and the requests of the checked
    call and of the raw call carry that header and nothing of the header that
    was stored before. *)
Theorem change_token_header (self : PagureService) (token : string) :
  (change_token self token).(header) = {[ "Authorization" := "token " +:+ token ]}
  ∧ (change_token self token).(_token) = Some token
  ∧ (∀ (url : string) (method : option string) (params data : option dict),
       sent (call_api (change_token self token) url method params data)
       = [ {| requests.method := method_or_GET method;
              requests.url := url;
              requests.params := params;
              requests.headers := {[ "Authorization" := "token " +:+ token ]};
              requests.data := data;
              requests.verify := negb self.(insecure) |} ])
  ∧ (∀ (url method : string) (params data : option dict),
       sent (get_raw_request (change_token self token) url method params data None)
       = [ {| requests.method := method;
              requests.url := url;
              requests.params := params;
              requests.headers := {[ "Authorization" := "token " +:+ token ]};
              requests.data := data;
              requests.verify := negb self.(insecure) |} ]).
Proof.
  split; [reflexivity|]. split; [reflexivity|]. split.
  - intros url method params data. rewrite call_api_sent. reflexivity.
  - intros url method params data. unfold get_raw_request, header_or.
    by destruct (session _ _).
Qed.

(** ** The raw call *)

(** C8: when the body of the response is not JSON, [get_raw_request] raises
    nothing: it returns the wrapper with the raw bytes of the response and
    [None] as decoded JSON, and so does [call_api_raw]; the checked call on
    the same response raises. *)
Theorem get_raw_request_keeps_undecodable (self : PagureService) (url : string)
    (params data : option dict) :
  (∀ (method : string) (header_arg : option (gmap string string))
     (response : requests.Response),
     self.(session)
       {| requests.method := method;
          requests.url := url;
          requests.params := params;
          requests.headers := header_or header_arg self.(header);
          requests.data := data;
          requests.verify := negb self.(insecure) |} = Return response →
     requests.json response = None →
     outcome (get_raw_request self url method params data header_arg)
     = Return {| status_code := requests.status_code response;
                 ok := requests.ok response;
                 content := requests.content response;
                 json_content := None;
                 reason := requests.reason response |})
  ∧ (∀ (method : option string) (response : requests.Response),
       self.(session) (api_request self url method params data) = Return response →
       requests.json response = None →
       outcome (call_api_raw self url method params data)
       = Return {| status_code := requests.status_code response;
                   ok := requests.ok response;
                   content := requests.content response;
                   json_content := None;
                   reason := requests.reason response |}
       ∧ ∃ ex : PagureAPIException,
           outcome (call_api self url method params data) = Raise (EPagureAPI ex)).
Proof.
  split.
  - intros method header_arg response Hanswer Hjson.
    unfold get_raw_request. rewrite Hanswer. unfold outcome; simpl.
    by rewrite Hjson.
  - intros method response Hanswer Hjson. split.
    + unfold call_api_raw, get_raw_request, header_or.
      fold (api_request self url method params data).
      rewrite Hanswer. unfold outcome; simpl. by rewrite Hjson.
    + rewrite (call_api_responded _ _ _ _ _ _ Hanswer). unfold outcome; simpl.
      unfold check_response, wrap; simpl. rewrite Hjson.
      case_bool_decide; eauto.
Qed.

Lemma get_raw_request_keeps_undecodable_witness :
  outcome (get_raw_request (pagure_io (answering plain_200))
             "https://pagure.io/ogr-tests/raw/master/f/README.rst" "GET"
             None None None)
  = Return {| status_code := 200;
              ok := true;
              content := String.list_byte_of_string "This is a testing repo";
              json_content := None;
              reason := "OK" |}
  ∧ ∃ ex : PagureAPIException,
      outcome (call_api (pagure_io (answering plain_200))
                 "https://pagure.io/ogr-tests/raw/master/f/README.rst" None
                 None None)
      = Raise (EPagureAPI ex).
Proof.
  split.
  - exact (proj1 (get_raw_request_keeps_undecodable
                    (pagure_io (answering plain_200))
                    "https://pagure.io/ogr-tests/raw/master/f/README.rst"
                    None None)
             "GET" None plain_200 eq_refl eq_refl).
  - exact (proj2 (proj2 (get_raw_request_keeps_undecodable
                    (pagure_io (answering plain_200))
                    "https://pagure.io/ogr-tests/raw/master/f/README.rst"
                    None None)
             None plain_200 eq_refl eq_refl)).
Defined.

(** ** The description of a new project *)

Lemma project_create_sent (self : PagureService) (repo : string)
    (namespace description : option string) :
  sent (project_create self repo namespace description)
  = [api_request self (get_api_url self [Some "new"] true) (Some "POST") None
       (Some (project_create_parameters repo namespace description))].
Proof.
  rewrite <- call_api_sent. unfold project_create.
  destruct (call_api _ _ _ _ _) as [reqs [body|e]]; [reflexivity|].
  destruct e; reflexivity.
Qed.

Lemma project_create_parameters_description (repo : string)
    (namespace description : option string) :
  project_create_parameters repo namespace description !! "description"
  = Some (if str_truthy description then of_opt_str description else VStr repo).
Proof.
  unfold project_create_parameters.
  assert (Hbase : ∀ parameters : dict,
    (match namespace with
     | Some ns => if str_truthy namespace then <["namespace" := VStr ns]> parameters
                  else parameters
     | None => parameters
     end) !! "description" = parameters !! "description").
  { intros parameters. destruct namespace as [ns|]; [|done].
    destruct (str_truthy (Some ns)); [|done]. by rewrite lookup_insert_ne. }
  rewrite Hbase.
  destruct (str_truthy description); simpl.
  - rewrite lookup_insert_ne by done. by rewrite lookup_insert_eq.
  - by rewrite lookup_insert_eq.
Qed.

(** C10, as stated, fails: for the empty repository name the forge receives
    the empty description. *)
Lemma empty_repo_empty_description : ¬ description_never_empty.
Proof.
  intros Hclaim.
  destruct (Hclaim (pagure_io (answering token_401)) "" None None (or_introl eq_refl))
    as (request & parameters & Hsent & Hdata & _ & Hnonempty).
  rewrite project_create_sent in Hsent. injection Hsent as <-.
  simpl in Hdata. injection Hdata as <-.
  apply Hnonempty. vm_compute. reflexivity.
Qed.

(** C10, amended: [project_create] sends one request, a POST to the creation
    endpoint; when the description is absent or empty its [description]
    parameter is the name of the repository, so the forge receives an empty
    description only when the name of the repository is itself empty. *)
Theorem project_create_description (self : PagureService) (repo : string)
    (namespace description : option string) :
  ∃ (request : requests.Request) (parameters : dict),
    sent (project_create self repo namespace description) = [request]
    ∧ requests.method request = "POST"
    ∧ requests.url request = self.(instance_url) +:+ "/api/0/new"
    ∧ requests.data request = Some parameters
    ∧ (description = None ∨ description = Some "" →
       parameters !! "description" = Some (VStr repo))
    ∧ (parameters !! "description" = Some (VStr "") → repo = "").
Proof.
  eexists _, _. split; [apply project_create_sent|].
  split; [reflexivity|]. split.
  { simpl. unfold get_api_url, api_url. simpl. by rewrite string_app_assoc. }
  split; [reflexivity|].
  rewrite project_create_parameters_description. split.
  - by intros [-> | ->].
  - destruct description as [d|]; simpl.
    + case_bool_decide as Hd; simpl; [|intros [=]; by subst].
      congruence.
    + congruence.
Qed.

Lemma project_create_description_witness :
  ∃ (request : requests.Request) (parameters : dict),
    sent (project_create (pagure_io (answering namespace_400))
            "new-ogr-testing-repo" (Some "nonexisting") None) = [request]
    ∧ requests.data request = Some parameters
    ∧ parameters !! "description" = Some (VStr "new-ogr-testing-repo").
Proof.
  destruct (project_create_description (pagure_io (answering namespace_400))
              "new-ogr-testing-repo" (Some "nonexisting") None)
    as (request & parameters & Hsent & _ & _ & Hdata & Hdescription & _).
  exists request, parameters.
  split; [exact Hsent|]. split; [exact Hdata|].
  apply Hdescription. left. reflexivity.
Defined.

(** ** The comment adapter *)

(** C9: when the note has [body], [author] with a [username], [created_at]
    and [updated_at], the comment gets exactly those four values, as they are,
    and the call raises nothing; and a call that raises has found one of the
    four missing. *)
Theorem from_raw_comment_copies (self : GitlabComment) (raw_comment : gitlab.Note) :
  (∀ (body username created_at updated_at : value) (a : dict),
     gitlab.attrs raw_comment !! "body" = Some body →
     gitlab.attrs raw_comment !! "author" = Some (VDict a) →
     a !! "username" = Some username →
     gitlab.attrs raw_comment !! "created_at" = Some created_at →
     gitlab.attrs raw_comment !! "updated_at" = Some updated_at →
     _from_raw_comment self raw_comment
     = ({| __raw_comment := Some raw_comment;
           comment := Some body;
           author := Some username;
           created := Some created_at;
           edited := Some updated_at |},
        Return tt))
  ∧ (∀ e : exn,
       (_from_raw_comment self raw_comment).2 = Raise e →
       gitlab.attrs raw_comment !! "body" = None
       ∨ (∀ (a : dict) (username : value),
            gitlab.attrs raw_comment !! "author" = Some (VDict a) →
            a !! "username" = Some username → False)
       ∨ gitlab.attrs raw_comment !! "created_at" = None
       ∨ gitlab.attrs raw_comment !! "updated_at" = None).
Proof.
  split.
  - intros body username created_at updated_at a Hbody Hauthor Huser Hcreated Hupdated.
    unfold _from_raw_comment, gitlab.getattr.
    rewrite Hbody, Hauthor. simpl. rewrite Huser, Hcreated, Hupdated.
    reflexivity.
  - intros e. unfold _from_raw_comment, gitlab.getattr.
    destruct (gitlab.attrs raw_comment !! "body") as [body|]; [|by left].
    destruct (gitlab.attrs raw_comment !! "author") as [au|] eqn:Hauthor; simpl;
      [|intros _; right; left; intros a username [=]].
    destruct (getitem_str au "username") as [username|e'] eqn:Huser.
    + destruct (gitlab.attrs raw_comment !! "created_at") as [created_at|];
        [|intros _; by right; right; left].
      destruct (gitlab.attrs raw_comment !! "updated_at") as [updated_at|];
        [|intros _; by right; right; right].
      simpl. discriminate.
    + intros _. right; left. intros a username [= ->] Ha.
      simpl in Huser. rewrite Ha in Huser. discriminate.
Qed.

Lemma from_raw_comment_copies_witness :
  _from_raw_comment blank_comment hi_note
  = ({| __raw_comment := Some hi_note;
        comment := Some (VStr "hi");
        author := Some (VStr "x");
        created := Some (VStr "2019-09-12T09:05:27.000Z");
        edited := Some (VStr "2019-09-13T10:00:00.000Z") |},
     Return tt).
Proof.
  apply (proj1 (from_raw_comment_copies blank_comment hi_note))
    with (a := {[ "username" := VStr "x"; "id" := VInt 7 ]}); reflexivity.
Defined.

(** ** Transport failures and the remaining outcomes of the checked call *)

(** X1: when the session cannot connect, the checked call has sent its one
    request and raises the API exception whose arguments are the message
    [Cannot connect to url: `url`.] and the network error itself; no error of
    the forge and no body are attached. *)
Theorem call_api_cannot_connect (self : PagureService) (url : string)
    (method : option string) (params data : option dict) (er : string) :
  self.(session) (api_request self url method params data)
  = Raise (EConnectionError er) →
  call_api self url method params data
  = ([api_request self url method params data],
     Raise (EPagureAPI
       {| args := [AMsg [Lit ("Cannot connect to url: `" +:+ url +:+ "`.")];
                   AErr er];
          pagure_error := VNone;
          pagure_response := None |})).
Proof.
  intros Hfail.
  unfold call_api, call_api_raw, get_raw_request, header_or.
  fold (api_request self url method params data).
  rewrite Hfail. reflexivity.
Qed.

Lemma call_api_cannot_connect_witness :
  call_api (pagure_io (unreachable "Name or service not known"))
    "https://pagure.io/api/0/version" None None None
  = ([api_request (pagure_io (unreachable "Name or service not known"))
        "https://pagure.io/api/0/version" None None None],
     Raise (EPagureAPI
       {| args := [AMsg [Lit ("Cannot connect to url: `"
                              +:+ "https://pagure.io/api/0/version" +:+ "`.")];
                   AErr "Name or service not known"];
          pagure_error := VNone;
          pagure_response := None |})).
Proof.
  apply (call_api_cannot_connect
           (pagure_io (unreachable "Name or service not known"))
           "https://pagure.io/api/0/version" None None None
           "Name or service not known").
  reflexivity.
Defined.

(** What looking up [error] in a decoded body can give: a value, or
    [TypeError] when the body is not an object. *)
Lemma error_lookup_outcome (v : value) :
  (∃ found : bool, contains "error" v = Return found
     ∧ (found = true →
        (∃ msg : value, getitem_str v "error" = Return msg)
        ∨ (getitem_str v "error" = Raise ETypeError ∧ ∀ j : dict, v ≠ VDict j)))
  ∨ (contains "error" v = Raise ETypeError ∧ ∀ j : dict, v ≠ VDict j).
Proof.
  destruct v as [|b|n|f|s|l|m]; simpl;
    try (right; split; [reflexivity|discriminate]).
  - left. eexists. split; [reflexivity|]. intros _. right.
    split; [reflexivity|discriminate].
  - left. eexists. split; [reflexivity|]. intros _. right.
    split; [reflexivity|discriminate].
  - left. eexists. split; [reflexivity|]. intros Hfound. left.
    apply bool_decide_eq_true in Hfound as [msg Hmsg].
    rewrite Hmsg. eauto.
Qed.

(** X2: whatever the checked call raises is an API exception, or the
    [TypeError] of a body that decodes to a value that is true and is not an
    object, or an exception that the session itself raised and that is not a
    connection error; a connection error never leaves the checked call as it
    is, and the checks never raise [KeyError]. *)
Theorem call_api_raises_only (self : PagureService) (url : string)
    (method : option string) (params data : option dict) (e : exn) :
  outcome (call_api self url method params data) = Raise e →
  (∃ ex : PagureAPIException, e = EPagureAPI ex)
  ∨ (e = ETypeError
     ∧ ∃ (response : requests.Response) (v : value),
         self.(session) (api_request self url method params data) = Return response
         ∧ requests.json response = Some v
         ∧ truthy v = true
         ∧ ∀ j : dict, v ≠ VDict j)
  ∨ (self.(session) (api_request self url method params data) = Raise e
     ∧ ∀ er : string, e ≠ EConnectionError er).
Proof.
  unfold call_api, call_api_raw, get_raw_request, header_or.
  fold (api_request self url method params data).
  destruct (session self _) as [response|e0] eqn:Hanswer; unfold outcome; simpl.
  - unfold check_response; simpl.
    destruct (requests.json response) as [v|] eqn:Hjson;
      [|case_bool_decide; simpl; intros [= <-]; eauto].
    destruct (truthy v) eqn:Htrue;
      [|case_bool_decide; simpl; intros [= <-]; eauto].
    assert (Htype : ∀ e' : exn, e' = ETypeError → (∀ j : dict, v ≠ VDict j) →
              (∃ ex : PagureAPIException, e' = EPagureAPI ex)
              ∨ (e' = ETypeError
                 ∧ ∃ (response0 : requests.Response) (v0 : value),
                     Return response = Return response0
                     ∧ requests.json response0 = Some v0
                     ∧ truthy v0 = true
                     ∧ ∀ j : dict, v0 ≠ VDict j)
              ∨ (Return response = Raise e' ∧ ∀ er : string, e' ≠ EConnectionError er)).
    { intros e' -> Hnot. right. left. split; [reflexivity|].
      exists response, v. by rewrite Hjson. }
    destruct (error_lookup_outcome v)
      as [(found & -> & Hfound) | [-> Hnot]].
    + destruct found; simpl.
      * destruct (Hfound eq_refl) as [[msg ->] | [-> Hnot]]; simpl;
          case_bool_decide; simpl; try destruct (requests.ok response); simpl;
          intros [= <-]; eauto.
      * case_bool_decide; simpl; try destruct (requests.ok response); simpl;
          intros [= <-]; eauto.
    + simpl. case_bool_decide; simpl; try destruct (requests.ok response); simpl;
        intros [= <-]; eauto.
  - destruct e0; simpl; intros [= <-]; eauto;
      right; right; split; try done.
Qed.

Lemma call_api_raises_only_witness :
  (∃ ex : PagureAPIException, ETypeError = EPagureAPI ex)
  ∨ (ETypeError = ETypeError
     ∧ ∃ (response : requests.Response) (v : value),
         (pagure_io (answering string_500)).(session)
           (api_request (pagure_io (answering string_500))
              "https://pagure.io/api/0/version" None None None) = Return response
         ∧ requests.json response = Some v
         ∧ truthy v = true
         ∧ ∀ j : dict, v ≠ VDict j)
  ∨ ((pagure_io (answering string_500)).(session)
       (api_request (pagure_io (answering string_500))
          "https://pagure.io/api/0/version" None None None)
     = Raise ETypeError
     ∧ ∀ er : string, ETypeError ≠ EConnectionError er).
Proof.
  apply (call_api_raises_only (pagure_io (answering string_500))
           "https://pagure.io/api/0/version" None None None).
  vm_compute. reflexivity.
Defined.

(** X3: for a response that is not successful and not a 404, whose body
    decodes to a JSON object that is not empty and has no [error] field, the
    checked call raises the API exception with the message [Problem with
    Pagure API when calling `url`] and attaches neither an error nor the
    body. *)
Theorem call_api_problem (self : PagureService) (url : string)
    (method : option string) (params data : option dict)
    (response : requests.Response) (j : dict) :
  self.(session) (api_request self url method params data) = Return response →
  requests.status_code response ≠ 404 →
  requests.ok response = false →
  requests.json response = Some (VDict j) →
  j ≠ ∅ →
  j !! "error" = None →
  outcome (call_api self url method params data)
  = Raise (EPagureAPI
      {| args := [AMsg [Lit ("Problem with Pagure API when calling `"
                             +:+ url +:+ "`")]];
         pagure_error := VNone;
         pagure_response := None |}).
Proof.
  intros Hanswer H404 Hok Hjson Hne Herror.
  rewrite (call_api_responded _ _ _ _ _ _ Hanswer). unfold outcome; simpl.
  unfold check_response, wrap; simpl.
  rewrite bool_decide_eq_false_2 by done.
  rewrite Hjson, (truthy_dict_ne _ Hne), Hok. simpl negb. cbv iota.
  rewrite (contains_dict_absent _ _ Herror). reflexivity.
Qed.

Lemma call_api_problem_witness :
  outcome (call_api (pagure_io (answering broken_500))
             "https://pagure.io/api/0/version" None None None)
  = Raise (EPagureAPI
      {| args := [AMsg [Lit ("Problem with Pagure API when calling `"
                             +:+ "https://pagure.io/api/0/version" +:+ "`")]];
         pagure_error := VNone;
         pagure_response := None |}).
Proof.
  apply (call_api_problem (pagure_io (answering broken_500))
           "https://pagure.io/api/0/version" None None None
           broken_500 {[ "message" := VStr "oops" ]}).
  - reflexivity.
  - vm_compute. discriminate.
  - reflexivity.
  - reflexivity.
  - vm_compute. discriminate.
  - reflexivity.
Defined.

(** X4: a body that the checked call returns is the decoded body of a
    response of the forge that is flagged successful and is not a 404, and it
    is never a value that is false: not the empty dictionary, nor the empty
    list or string, zero, [False] or [None]. *)
Theorem call_api_return_inv (self : PagureService) (url : string)
    (method : option string) (params data : option dict) (j : value) :
  outcome (call_api self url method params data) = Return j →
  ∃ response : requests.Response,
    self.(session) (api_request self url method params data) = Return response
    ∧ requests.status_code response ≠ 404
    ∧ requests.ok response = true
    ∧ requests.json response = Some j
    ∧ truthy j = true
    ∧ j ≠ VDict ∅.
Proof.
  unfold call_api, call_api_raw, get_raw_request, header_or.
  fold (api_request self url method params data).
  destruct (session self _) as [response|e0] eqn:Hanswer; unfold outcome; simpl.
  - unfold check_response; simpl. intros Hreturn. exists response.
    split; [reflexivity|].
    case_bool_decide as H404.
    { destruct (requests.json response) as [v|]; simpl in Hreturn;
        [|discriminate].
      destruct (truthy v); simpl in Hreturn; [|discriminate].
      destruct (contains "error" v) as [[|]|]; simpl in Hreturn;
        try discriminate.
      destruct (getitem_str v "error"); simpl in Hreturn; discriminate. }
    destruct (requests.json response) as [j'|]; [|discriminate].
    destruct (truthy j') eqn:Htruthy; simpl in Hreturn; [|discriminate].
    destruct (requests.ok response); simpl in Hreturn.
    + injection Hreturn as ->. repeat split; try done.
      intros ->. by vm_compute in Htruthy.
    + destruct (contains "error" j') as [[|]|]; simpl in Hreturn;
        try discriminate.
      destruct (getitem_str j' "error"); simpl in Hreturn; discriminate.
  - destruct e0; simpl; discriminate.
Qed.

Lemma call_api_return_inv_witness :
  ∃ response : requests.Response,
    (pagure_io (answering version_200)).(session)
      (api_request (pagure_io (answering version_200))
         "https://pagure.io/api/0/version" None None None) = Return response
    ∧ requests.status_code response ≠ 404
    ∧ requests.ok response = true
    ∧ requests.json response = Some (VDict {[ "version" := VStr "0.29" ]})
    ∧ truthy (VDict {[ "version" := VStr "0.29" ]}) = true
    ∧ VDict {[ "version" := VStr "0.29" ]} ≠ VDict ∅.
Proof.
  apply (call_api_return_inv (pagure_io (answering version_200))
           "https://pagure.io/api/0/version" None None None).
  vm_compute. reflexivity.
Defined.

(** X5: the raw call raises only what the session raises, and raises it
    unchanged, a connection error included; whenever the forge answers it
    returns, at every status code and for every body, and the wrapper it
    returns has the status, the flag, the bytes, the decoded body and the
    reason of the response. *)
Theorem get_raw_request_outcome (self : PagureService) (url method : string)
    (params data : option dict) (header_arg : option (gmap string string)) :
  let request :=
    {| requests.method := method;
       requests.url := url;
       requests.params := params;
       requests.headers := header_or header_arg self.(header);
       requests.data := data;
       requests.verify := negb self.(insecure) |} in
  (∀ e : exn,
     outcome (get_raw_request self url method params data header_arg) = Raise e
     ↔ self.(session) request = Raise e)
  ∧ (∀ response : requests.Response,
       self.(session) request = Return response →
       ∃ wrapper : RequestResponse,
         outcome (get_raw_request self url method params data header_arg)
         = Return wrapper
         ∧ wrapper.(status_code) = requests.status_code response
         ∧ wrapper.(ok) = requests.ok response
         ∧ wrapper.(content) = requests.content response
         ∧ wrapper.(json_content) = requests.json response
         ∧ wrapper.(reason) = requests.reason response).
Proof.
  intros request. unfold get_raw_request, outcome. fold request. split.
  - intros e. destruct (session self request); simpl; split; congruence.
  - intros response ->. simpl. eexists. split; [reflexivity|]. done.
Qed.

Lemma get_raw_request_outcome_witness :
  ∃ wrapper : RequestResponse,
    outcome (get_raw_request (pagure_io (answering html_404))
               "https://pagure.io/api/0/nothing" "GET" None None None)
    = Return wrapper
    ∧ wrapper.(status_code) = 404
    ∧ wrapper.(ok) = false
    ∧ wrapper.(content) = String.list_byte_of_string "<html>Not Found</html>"
    ∧ wrapper.(json_content) = None
    ∧ wrapper.(reason) = "NOT FOUND".
Proof.
  apply (proj2 (get_raw_request_outcome (pagure_io (answering html_404))
                  "https://pagure.io/api/0/nothing" "GET" None None None)
           html_404).
  reflexivity.
Defined.

(** X6: a header that is passed to the raw call and is not empty is sent as
    it is, in place of the stored one, so that the token of the service is
    not sent; an empty one, like none at all, leaves the stored header in the
    request. *)
Theorem get_raw_request_explicit_header (self : PagureService) (url method : string)
    (params data : option dict) (h : gmap string string) :
  (h ≠ ∅ →
   sent (get_raw_request self url method params data (Some h))
   = [ {| requests.method := method;
          requests.url := url;
          requests.params := params;
          requests.headers := h;
          requests.data := data;
          requests.verify := negb self.(insecure) |} ])
  ∧ sent (get_raw_request self url method params data (Some ∅))
    = sent (get_raw_request self url method params data None).
Proof.
  split.
  - intros Hne. unfold get_raw_request, header_or.
    rewrite bool_decide_eq_false_2 by done.
    by destruct (session self _).
  - unfold get_raw_request, header_or.
    rewrite bool_decide_eq_true_2 by done.
    by destruct (session self _).
Qed.

Lemma get_raw_request_explicit_header_witness :
  sent (get_raw_request (pagure_io (answering plain_200))
          "https://pagure.io/ogr-tests/raw/master/f/README.rst" "GET" None None
          (Some {[ "Accept" := "text/plain" ]}))
  = [ {| requests.method := "GET";
         requests.url := "https://pagure.io/ogr-tests/raw/master/f/README.rst";
         requests.params := None;
         requests.headers := {[ "Accept" := "text/plain" ]};
         requests.data := None;
         requests.verify := negb (pagure_io (answering plain_200)).(insecure) |} ].
Proof.
  apply (proj1 (get_raw_request_explicit_header (pagure_io (answering plain_200))
                  "https://pagure.io/ogr-tests/raw/master/f/README.rst" "GET"
                  None None {[ "Accept" := "text/plain" ]})).
  vm_compute. discriminate.
Defined.

(** ** Construction, tokens, comparison and printing *)

(** X7: a service is constructed without an authorisation header exactly when
    it is given no token or the empty one, and with the header
    [{"Authorization": "token " + token}] otherwise; the token is stored as
    it is given in both cases. *)
Theorem init_header (token : option string) (url : string) (ro ins : bool)
    (sess : requests.Request → result requests.Response) :
  ((PagureService_init token url ro ins sess).(header) = ∅
   ↔ token = None ∨ token = Some "")
  ∧ (∀ t : string, token = Some t → t ≠ "" →
       (PagureService_init token url ro ins sess).(header)
       = {[ "Authorization" := "token " +:+ t ]})
  ∧ (PagureService_init token url ro ins sess).(_token) = token.
Proof.
  split; [|split; [|reflexivity]].
  - destruct token as [t|]; simpl; [|naive_solver].
    case_bool_decide as Ht; simpl.
    + subst. naive_solver.
    + split.
      * intros Hempty. apply (f_equal (.!! "Authorization")) in Hempty.
        rewrite lookup_singleton_eq, lookup_empty in Hempty. discriminate.
      * intros [?|[= ?]]; congruence.
  - intros t -> Ht. simpl. by rewrite bool_decide_eq_false_2.
Qed.

Lemma init_header_witness :
  (PagureService_init (Some "secret") "https://pagure.io" false false
     (answering plain_200)).(header)
  = {[ "Authorization" := "token " +:+ "secret" ]}.
Proof.
  apply (proj1 (proj2 (init_header (Some "secret") "https://pagure.io" false false
                         (answering plain_200))) "secret").
  - reflexivity.
  - discriminate.
Defined.

(** X8: changing the token to one that is not empty gives the service that
    the constructor builds from that token and the same URL, flags and
    session, and the token changed last is the one that counts; changing it
    to the empty string does not: the header [{"Authorization": "token "}] is
    stored, where the constructor stores none. *)
Theorem change_token_init (self : PagureService) :
  (∀ token : string, token ≠ "" →
     change_token self token
     = PagureService_init (Some token) self.(instance_url) self.(read_only)
         self.(insecure) self.(session))
  ∧ (∀ token1 token2 : string,
       change_token (change_token self token1) token2 = change_token self token2)
  ∧ (change_token self "").(header) = {[ "Authorization" := "token " ]}
  ∧ (change_token self "").(header)
    ≠ (PagureService_init (Some "") self.(instance_url) self.(read_only)
         self.(insecure) self.(session)).(header).
Proof.
  split; [|split; [|split]].
  - intros token Ht. unfold change_token, PagureService_init. simpl.
    by rewrite bool_decide_eq_false_2.
  - reflexivity.
  - reflexivity.
  - simpl. intros Heq. apply (f_equal (.!! "Authorization")) in Heq.
    rewrite lookup_singleton_eq, lookup_empty in Heq. discriminate.
Qed.

Lemma change_token_init_witness :
  change_token (pagure_io (answering plain_200)) "fresh"
  = PagureService_init (Some "fresh")
      (pagure_io (answering plain_200)).(instance_url)
      (pagure_io (answering plain_200)).(read_only)
      (pagure_io (answering plain_200)).(insecure)
      (pagure_io (answering plain_200)).(session).
Proof.
  apply (proj1 (change_token_init (pagure_io (answering plain_200))) "fresh").
  discriminate.
Defined.

(** What [__eq__] compares. *)
Lemma eq_fields (self o : PagureService) :
  __eq__ self (OService o) = true
  ↔ self.(_token) = o.(_token) ∧ self.(read_only) = o.(read_only)
    ∧ self.(instance_url) = o.(instance_url) ∧ self.(insecure) = o.(insecure)
    ∧ self.(header) = o.(header).
Proof.
  unfold __eq__. rewrite !andb_true_iff, !bool_decide_eq_true. tauto.
Qed.

(** X9: services that [__eq__] holds equal print the same and, whatever the
    hash of strings is, have the same hash. *)
Theorem eq_same_str_and_hash (self o : PagureService) :
  __eq__ self (OService o) = true →
  __str__ self = __str__ o
  ∧ ∀ hash : string → Z, __hash__ hash self = __hash__ hash o.
Proof.
  intros Heq. apply eq_fields in Heq as (Htoken & Hro & Hurl & Hins & _).
  assert (Hstr : __str__ self = __str__ o).
  { unfold __str__. by rewrite Htoken, Hro, Hurl, Hins. }
  split; [exact Hstr|]. intros hash. unfold __hash__. by rewrite Hstr.
Qed.

Lemma eq_same_str_and_hash_witness :
  __str__ (pagure_io (answering plain_200)) = __str__ (pagure_io (answering html_404))
  ∧ ∀ hash : string → Z,
      __hash__ hash (pagure_io (answering plain_200))
      = __hash__ hash (pagure_io (answering html_404)).
Proof.
  apply (eq_same_str_and_hash (pagure_io (answering plain_200))
           (pagure_io (answering html_404))).
  vm_compute. reflexivity.
Defined.

(** X10: [__eq__] is reflexive, symmetric and transitive on services, never
    holds between a service and an object of another class, and does not look
    at the session. *)
Theorem eq_equivalence (self : PagureService) :
  __eq__ self (OService self) = true
  ∧ (∀ o : PagureService,
       __eq__ self (OService o) = __eq__ o (OService self))
  ∧ (∀ o1 o2 : PagureService,
       __eq__ self (OService o1) = true → __eq__ o1 (OService o2) = true →
       __eq__ self (OService o2) = true)
  ∧ (∀ v : value, __eq__ self (OOther v) = false)
  ∧ (∀ sess : requests.Request → result requests.Response,
       __eq__ self
         (OService {| instance_url := self.(instance_url);
                      _token := self.(_token);
                      read_only := self.(read_only);
                      insecure := self.(insecure);
                      header := self.(header);
                      session := sess |}) = true).
Proof.
  split; [|split; [|split; [|split]]].
  - apply eq_fields. done.
  - intros o. apply eq_true_iff_eq. rewrite !eq_fields.
    split; intros (? & ? & ? & ? & ?); repeat split; congruence.
  - intros o1 o2. rewrite !eq_fields.
    intros (? & ? & ? & ? & ?) (? & ? & ? & ? & ?); repeat split; congruence.
  - reflexivity.
  - intros sess. apply eq_fields. done.
Qed.

Lemma eq_equivalence_witness :
  __eq__ (pagure_io (answering plain_200))
    (OService (PagureService_init (Some "secret") "https://pagure.io" false false
                 (answering html_404))) = true.
Proof.
  apply (proj1 (proj2 (proj2 (eq_equivalence (pagure_io (answering plain_200)))))
           (pagure_io (answering version_200))
           (PagureService_init (Some "secret") "https://pagure.io" false false
              (answering html_404))).
  - vm_compute. reflexivity.
  - vm_compute. reflexivity.
Defined.

(** X11: printing does not tell a service without a token from a service
    with the empty token, although [__eq__] does: for every URL, flags and
    session the two print the same, have the same hash and are not equal. *)
Theorem str_hides_empty_token (url : string) (ro ins : bool)
    (sess : requests.Request → result requests.Response) :
  __str__ (PagureService_init None url ro ins sess)
  = __str__ (PagureService_init (Some "") url ro ins sess)
  ∧ (∀ hash : string → Z,
       __hash__ hash (PagureService_init None url ro ins sess)
       = __hash__ hash (PagureService_init (Some "") url ro ins sess))
  ∧ __eq__ (PagureService_init None url ro ins sess)
      (OService (PagureService_init (Some "") url ro ins sess)) = false.
Proof.
  split; [reflexivity|]. split; [reflexivity|].
  unfold __eq__. simpl. reflexivity.
Qed.

(** ** More on URLs and the version of the API *)

Lemma string_app_nil_r (s : string) : s +:+ "" = s.
Proof.
  induction s as [|c s IH]; [reflexivity|].
  change (String c (s +:+ "") = String c s). f_equal. exact IH.
Qed.

Lemma concat_snoc (sep : string) (l : list string) (x : string) :
  String.concat sep (l ++ [x])
  = match l with
    | [] => x
    | _ :: _ => String.concat sep l +:+ sep +:+ x
    end.
Proof.
  induction l as [|a l IH]; [reflexivity|].
  change (String.concat sep (a :: (l ++ [x]))
          = String.concat sep (a :: l) +:+ sep +:+ x).
  destruct l as [|b l].
  - reflexivity.
  - change (a +:+ sep +:+ String.concat sep ((b :: l) ++ [x])
            = (a +:+ sep +:+ String.concat sep (b :: l)) +:+ sep +:+ x).
    rewrite IH. by rewrite !string_app_assoc.
Qed.

(** X12: the URL grows with its segments.  A segment added behind others
    that are not [None] is appended after a slash; a segment that is the
    first one after the root is appended without a slash, the root ending in
    one; and without any segment the URL with the API part is the root
    [{instance_url}/api/0/] itself. *)
Theorem get_api_url_append (self : PagureService) (args : list (option string))
    (x : string) (add : bool) :
  (filter_not_None args ≠ [] →
   get_api_url self (args ++ [Some x]) add
   = get_api_url self args add +:+ "/" +:+ x)
  ∧ (filter_not_None args = [] →
     get_api_url self (args ++ [Some x]) add = get_api_url self args add +:+ x
     ∧ get_api_url self args true = self.(instance_url) +:+ "/api/0/").
Proof.
  unfold get_api_url, api_url. simpl.
  rewrite filter_not_None_app. simpl. rewrite concat_snoc.
  split.
  - intros Hsome. destruct (filter_not_None args) as [|a l]; [done|].
    destruct add; by rewrite !string_app_assoc.
  - intros ->. simpl. rewrite !string_app_nil_r. by destruct add.
Qed.

Lemma get_api_url_append_witness :
  get_api_url (pagure_io (answering plain_200))
    ([Some "ogr-tests"; None; Some "pull-request"] ++ [Some "4"]) true
  = get_api_url (pagure_io (answering plain_200))
      [Some "ogr-tests"; None; Some "pull-request"] true +:+ "/" +:+ "4".
Proof.
  apply (proj1 (get_api_url_append (pagure_io (answering plain_200))
                  [Some "ogr-tests"; None; Some "pull-request"] "4" true)).
  simpl. discriminate.
Defined.

Lemma get_api_url_one (self : PagureService) (x : string) :
  get_api_url self [Some x] true = self.(instance_url) +:+ "/api/0/" +:+ x.
Proof.
  unfold get_api_url, api_url. simpl. by rewrite string_app_assoc.
Qed.

(** X13: [get_api_version] sends one GET to [{instance_url}/api/0/version]
    with the stored header and neither parameters nor data; when the forge
    answers with a successful response whose body decodes to a value that is
    true, the result is the [version] field when the body is an object that
    has one, [KeyError('version')] is raised when the body is an object
    without that field, and [TypeError] when the body is not an object. *)
Theorem get_api_version_outcome (self : PagureService)
    (response : requests.Response) (body : value) :
  let request :=
    {| requests.method := "GET";
       requests.url := self.(instance_url) +:+ "/api/0/version";
       requests.params := None;
       requests.headers := self.(header);
       requests.data := None;
       requests.verify := negb self.(insecure) |} in
  self.(session) request = Return response →
  requests.status_code response ≠ 404 →
  requests.ok response = true →
  requests.json response = Some body →
  truthy body = true →
  sent (get_api_version self) = [request]
  ∧ (∀ j : dict, body = VDict j →
       outcome (get_api_version self)
       = match j !! "version" with
         | Some version => Return version
         | None => Raise (EKeyError (VStr "version"))
         end)
  ∧ ((∀ j : dict, body ≠ VDict j) →
     outcome (get_api_version self) = Raise ETypeError).
Proof.
  intros request Hanswer H404 Hok Hjson Htrue.
  unfold get_api_version. rewrite get_api_url_one.
  assert (Hrequest : api_request self (self.(instance_url) +:+ "/api/0/version")
                       None None None = request) by reflexivity.
  change ("/api/0/" +:+ "version") with "/api/0/version".
  rewrite (call_api_responded self _ None None None response)
    by (rewrite Hrequest; exact Hanswer).
  rewrite Hrequest, (check_response_ok _ (wrap response) body) by done.
  split; [reflexivity|]. split.
  - intros j ->. reflexivity.
  - intros Hnot. unfold outcome; simpl.
    destruct body; try reflexivity. by destruct (Hnot m).
Qed.

Lemma get_api_version_outcome_witness :
  sent (get_api_version (pagure_io (answering version_200)))
  = [ {| requests.method := "GET";
         requests.url := "https://pagure.io" +:+ "/api/0/version";
         requests.params := None;
         requests.headers := (pagure_io (answering version_200)).(header);
         requests.data := None;
         requests.verify := negb (pagure_io (answering version_200)).(insecure) |} ]
  ∧ outcome (get_api_version (pagure_io (answering version_200)))
    = Return (VStr "0.29")
  ∧ outcome (get_api_version (pagure_io (answering list_200))) = Raise ETypeError.
Proof.
  assert (H404 : requests.status_code version_200 ≠ 404)
    by (vm_compute; discriminate).
  assert (H404' : requests.status_code list_200 ≠ 404)
    by (vm_compute; discriminate).
  destruct (get_api_version_outcome (pagure_io (answering version_200))
              version_200 (VDict {[ "version" := VStr "0.29" ]})
              eq_refl H404 eq_refl eq_refl eq_refl) as (Hsent & Hdict & _).
  destruct (get_api_version_outcome (pagure_io (answering list_200))
              list_200 (VList [VStr "0.29"])
              eq_refl H404' eq_refl eq_refl eq_refl) as (_ & _ & Hother).
  split; [exact Hsent|]. split.
  - rewrite (Hdict _ eq_refl). reflexivity.
  - apply Hother. discriminate.
Defined.

(** ** More on project creation *)

(** X14: when the forge answers the creation with a successful response
    whose body is not empty (it decodes to a value that is true, an object
    or not), [project_create] returns the handle of the project with the name
    and the namespace it was given and with the service itself; nothing of
    the body is read. *)
Theorem project_create_returns_handle (self : PagureService) (repo : string)
    (namespace description : option string)
    (response : requests.Response) (j : value) :
  self.(session)
    (api_request self (self.(instance_url) +:+ "/api/0/new") (Some "POST") None
       (Some (project_create_parameters repo namespace description)))
  = Return response →
  requests.status_code response ≠ 404 →
  requests.ok response = true →
  requests.json response = Some j →
  truthy j = true →
  outcome (project_create self repo namespace description)
  = Return {| repo := repo; namespace := namespace; service := self |}.
Proof.
  intros Hanswer H404 Hok Hjson Hne.
  unfold project_create. rewrite get_api_url_one.
  change ("/api/0/" +:+ "new") with "/api/0/new".
  rewrite (call_api_responded _ _ _ _ _ _ Hanswer).
  by rewrite (check_response_ok _ (wrap response) j).
Qed.

Lemma project_create_returns_handle_witness :
  outcome (project_create (pagure_io (answering created_200))
             "new-ogr-testing-repo" (Some "packit-service") None)
  = Return {| repo := "new-ogr-testing-repo";
              namespace := Some "packit-service";
              service := pagure_io (answering created_200) |}.
Proof.
  apply (project_create_returns_handle (pagure_io (answering created_200))
           "new-ogr-testing-repo" (Some "packit-service") None
           created_200 (VDict {[ "message" := VStr "Project created" ]})).
  - reflexivity.
  - vm_compute. discriminate.
  - reflexivity.
  - reflexivity.
  - vm_compute. reflexivity.
Defined.

(** X15: the data of the creation request.  [name] is the name of the
    repository and [wait] is [True]; a description that is not empty is sent
    as it is; [namespace] is the namespace when one is given that is not
    empty, and the key is left out otherwise; there is no other key. *)
Theorem project_create_parameters_shape (repo : string)
    (namespace description : option string) :
  let parameters := project_create_parameters repo namespace description in
  parameters !! "name" = Some (VStr repo)
  ∧ parameters !! "wait" = Some (VBool true)
  ∧ (∀ d : string, description = Some d → d ≠ "" →
       parameters !! "description" = Some (VStr d))
  ∧ (∀ ns : string, namespace = Some ns → ns ≠ "" →
       parameters !! "namespace" = Some (VStr ns))
  ∧ (namespace = None ∨ namespace = Some "" → parameters !! "namespace" = None)
  ∧ (∀ k : string,
       k ≠ "name" → k ≠ "description" → k ≠ "wait" → k ≠ "namespace" →
       parameters !! k = None).
Proof.
  intros parameters. subst parameters. unfold project_create_parameters.
  repeat split.
  - destruct namespace as [ns|], description as [d|]; simpl;
      repeat case_bool_decide; simpl; by simplify_map_eq.
  - destruct namespace as [ns|], description as [d|]; simpl;
      repeat case_bool_decide; simpl; by simplify_map_eq.
  - intros d -> Hd.
    destruct namespace as [ns|]; simpl;
      repeat case_bool_decide; simpl; by simplify_map_eq.
  - intros ns -> Hns.
    destruct description as [d|]; simpl;
      repeat case_bool_decide; simpl; by simplify_map_eq.
  - intros [-> | ->]; destruct description as [d|]; simpl;
      repeat case_bool_decide; simpl; by simplify_map_eq.
  - intros k Hname Hdescription Hwait Hnamespace.
    destruct namespace as [ns|], description as [d|]; simpl;
      repeat case_bool_decide; simpl; by simplify_map_eq.
Qed.

Lemma project_create_parameters_shape_witness :
  project_create_parameters "new-ogr-testing-repo" (Some "packit-service")
    (Some "A repository for tests") !! "description"
  = Some (VStr "A repository for tests")
  ∧ project_create_parameters "new-ogr-testing-repo" (Some "packit-service")
      (Some "A repository for tests") !! "namespace"
    = Some (VStr "packit-service")
  ∧ project_create_parameters "new-ogr-testing-repo" (Some "") None !! "namespace"
    = None.
Proof.
  split; [|split].
  - apply (proj1 (proj2 (proj2 (project_create_parameters_shape
             "new-ogr-testing-repo" (Some "packit-service")
             (Some "A repository for tests"))))
             "A repository for tests"); [reflexivity|discriminate].
  - apply (proj1 (proj2 (proj2 (proj2 (project_create_parameters_shape
             "new-ogr-testing-repo" (Some "packit-service")
             (Some "A repository for tests")))))
             "packit-service"); [reflexivity|discriminate].
  - apply (proj1 (proj2 (proj2 (proj2 (proj2 (project_create_parameters_shape
             "new-ogr-testing-repo" (Some "") None)))))).
    right. reflexivity.
Defined.

(** X16: an exception of the checked call that carries no body of the forge
    (the not-found, decoding, generic and connection errors) or a body that
    is false, and any exception that is not an API exception, the
    [TypeError] of the checks included, leaves [project_create] as it
    came. *)
Theorem project_create_propagates (self : PagureService) (repo : string)
    (namespace description : option string) (e : exn) :
  outcome (call_api self (self.(instance_url) +:+ "/api/0/new") (Some "POST") None
             (Some (project_create_parameters repo namespace description)))
  = Raise e →
  (∀ ex : PagureAPIException, e = EPagureAPI ex →
     ex.(pagure_response) = None
     ∨ ∃ resp : value, ex.(pagure_response) = Some resp ∧ truthy resp = false) →
  outcome (project_create self repo namespace description) = Raise e.
Proof.
  intros Hcall Hbody. unfold project_create. rewrite get_api_url_one.
  change ("/api/0/" +:+ "new") with "/api/0/new".
  destruct (call_api _ _ _ _ _) as [reqs [body|e']]; unfold outcome in *;
    simpl in *; [discriminate|].
  injection Hcall as ->.
  destruct e as [ex| | | | | | |]; try reflexivity.
  simpl. unfold invalid_namespace.
  destruct (Hbody ex eq_refl) as [-> | (resp & -> & ->)]; reflexivity.
Qed.

Lemma project_create_propagates_witness :
  outcome (project_create (pagure_io (answering html_404))
             "new-ogr-testing-repo" None None)
  = Raise (EPagureAPI
      {| args := [AMsg [Lit ("Page `" +:+ ("https://pagure.io" +:+ "/api/0/new")
                             +:+ "` not found when calling Pagure API.")]];
         pagure_error := VNone;
         pagure_response := None |}).
Proof.
  apply (project_create_propagates (pagure_io (answering html_404))
           "new-ogr-testing-repo" None None).
  - vm_compute. reflexivity.
  - intros ex [= <-]. left. reflexivity.
Defined.

(** X17: when the forge refuses the creation with a response that is not
    successful and not a 404, whose body has an [error] field and, under
    [errors], a [namespace] list that starts with [Not a valid choice],
    [project_create] raises the [OgrException] that names the namespace, not
    the API exception. *)
Theorem project_create_namespace_refused (self : PagureService) (repo : string)
    (namespace description : option string) (response : requests.Response)
    (j errors : dict) (msg : value) (rest : list value) :
  self.(session)
    (api_request self (self.(instance_url) +:+ "/api/0/new") (Some "POST") None
       (Some (project_create_parameters repo namespace description)))
  = Return response →
  requests.status_code response ≠ 404 →
  requests.ok response = false →
  requests.json response = Some (VDict j) →
  j !! "error" = Some msg →
  j !! "errors" = Some (VDict errors) →
  errors !! "namespace" = Some (VList (VStr "Not a valid choice" :: rest)) →
  outcome (project_create self repo namespace description)
  = Raise (EOgr ("Cannot create project in given namespace ("
                 +:+ str_of_opt namespace +:+ ").")).
Proof.
  intros Hanswer H404 Hok Hjson Hmsg Herrors Hns.
  apply (project_create_invalid_namespace self repo namespace description
           [api_request self (self.(instance_url) +:+ "/api/0/new") (Some "POST")
              None (Some (project_create_parameters repo namespace description))]
           {| args := [AMsg [Lit ("Pagure API returned an error when calling `"
                                  +:+ (self.(instance_url) +:+ "/api/0/new")
                                  +:+ "`: ");
                             Fmt msg]];
              pagure_error := msg;
              pagure_response := Some (VDict j) |}
           j errors rest); [|reflexivity|exact Herrors|exact Hns].
  rewrite get_api_url_one. change ("/api/0/" +:+ "new") with "/api/0/new".
  rewrite (call_api_responded _ _ _ _ _ _ Hanswer).
  by rewrite (check_response_error _ (wrap response) j msg).
Qed.

Lemma project_create_namespace_refused_witness :
  outcome (project_create (pagure_io (answering namespace_400))
             "new-ogr-testing-repo" (Some "nonexisting") None)
  = Raise (EOgr ("Cannot create project in given namespace ("
                 +:+ str_of_opt (Some "nonexisting") +:+ ").")).
Proof.
  apply (project_create_namespace_refused (pagure_io (answering namespace_400))
           "new-ogr-testing-repo" (Some "nonexisting") None namespace_400
           namespace_400_body
           {[ "namespace" := VList [VStr "Not a valid choice"] ]}
           (VStr "Invalid or incomplete input submitted") []).
  - reflexivity.
  - vm_compute. discriminate.
  - reflexivity.
  - reflexivity.
  - reflexivity.
  - reflexivity.
  - reflexivity.
Defined.

(** X18: without a method, and with the empty string as method, the checked
    call is the call with [GET]. *)
Theorem call_api_default_method (self : PagureService) (url : string)
    (params data : option dict) :
  call_api self url None params data = call_api self url (Some "GET") params data
  ∧ call_api self url (Some "") params data
    = call_api self url (Some "GET") params data
  ∧ ∀ method : option string,
      requests.method <$> sent (call_api self url method params data)
      = [match method with
         | Some m => if bool_decide (m = "") then "GET" else m
         | None => "GET"
         end].
Proof.
  split; [reflexivity|]. split; [reflexivity|].
  intros method. rewrite call_api_sent. simpl. unfold method_or_GET.
  destruct method as [m|]; [|reflexivity]. simpl. by case_bool_decide.
Qed.

(** ** More on the comment adapter *)



(** X20: the adapter always stores the note it is given, and its outcome
    does not depend on the comment it fills; when it raises nothing, the
    comment it leaves does not depend on what the comment held before, so
    that filling twice from the same note is filling once. *)
Theorem from_raw_comment_overwrites (self : GitlabComment) (raw_comment : gitlab.Note) :
  (_from_raw_comment self raw_comment).1.(__raw_comment) = Some raw_comment
  ∧ (∀ self' : GitlabComment,
       (_from_raw_comment self' raw_comment).2
       = (_from_raw_comment self raw_comment).2)
  ∧ ((_from_raw_comment self raw_comment).2 = Return () →
     (∀ self' : GitlabComment,
        _from_raw_comment self' raw_comment = _from_raw_comment self raw_comment)
     ∧ _from_raw_comment (_from_raw_comment self raw_comment).1 raw_comment
       = _from_raw_comment self raw_comment).
Proof.
  assert (Hsame : ∀ self' : GitlabComment,
    (_from_raw_comment self raw_comment).2 = Return () →
    _from_raw_comment self' raw_comment = _from_raw_comment self raw_comment).
  { intros self'. unfold _from_raw_comment.
    destruct (gitlab.getattr raw_comment "body"); [|discriminate].
    destruct (bind _ _); [|discriminate].
    destruct (gitlab.getattr raw_comment "created_at"); [|discriminate].
    destruct (gitlab.getattr raw_comment "updated_at"); [|discriminate].
    reflexivity. }
  split; [|split].
  - unfold _from_raw_comment.
    destruct (gitlab.getattr raw_comment "body"); [|reflexivity].
    destruct (bind _ _); [|reflexivity].
    destruct (gitlab.getattr raw_comment "created_at"); [|reflexivity].
    destruct (gitlab.getattr raw_comment "updated_at"); reflexivity.
  - intros self'. unfold _from_raw_comment.
    destruct (gitlab.getattr raw_comment "body"); [|reflexivity].
    destruct (bind _ _); [|reflexivity].
    destruct (gitlab.getattr raw_comment "created_at"); [|reflexivity].
    destruct (gitlab.getattr raw_comment "updated_at"); reflexivity.
  - intros Hok. split.
    + intros self'. by apply Hsame.
    + by apply Hsame.
Qed.

Lemma from_raw_comment_overwrites_witness :
  _from_raw_comment (_from_raw_comment blank_comment hi_note).1 hi_note
  = _from_raw_comment blank_comment hi_note.
Proof.
  apply (proj2 (proj2 (proj2 (from_raw_comment_overwrites blank_comment hi_note))
                  eq_refl)).
Defined.

(** ** The error codes *)

(** X21: [get_error_codes] sends one GET to [{instance_url}/api/0/error_codes]
    with the stored header and neither parameters nor data, and when the
    forge answers with a successful response whose body is not empty (it
    decodes to a value that is true, an object or not) it returns the whole
    decoded body, not a field of it. *)
Theorem get_error_codes_outcome (self : PagureService)
    (response : requests.Response) (j : value) :
  let request :=
    {| requests.method := "GET";
       requests.url := self.(instance_url) +:+ "/api/0/error_codes";
       requests.params := None;
       requests.headers := self.(header);
       requests.data := None;
       requests.verify := negb self.(insecure) |} in
  self.(session) request = Return response →
  requests.status_code response ≠ 404 →
  requests.ok response = true →
  requests.json response = Some j →
  truthy j = true →
  get_error_codes self = ([request], Return j).
Proof.
  intros request Hanswer H404 Hok Hjson Hne.
  unfold get_error_codes. rewrite get_api_url_one.
  assert (Hrequest : api_request self (self.(instance_url) +:+ "/api/0/error_codes")
                       None None None = request) by reflexivity.
  change ("/api/0/" +:+ "error_codes") with "/api/0/error_codes".
  rewrite (call_api_responded self _ None None None response)
    by (rewrite Hrequest; exact Hanswer).
  by rewrite Hrequest, (check_response_ok _ (wrap response) j).
Qed.

Lemma get_error_codes_outcome_witness :
  get_error_codes (pagure_io (answering created_200))
  = ([ {| requests.method := "GET";
          requests.url := "https://pagure.io" +:+ "/api/0/error_codes";
          requests.params := None;
          requests.headers := (pagure_io (answering created_200)).(header);
          requests.data := None;
          requests.verify := negb (pagure_io (answering created_200)).(insecure) |} ],
     Return (VDict {[ "message" := VStr "Project created" ]})).
Proof.
  apply (get_error_codes_outcome (pagure_io (answering created_200)) created_200
           (VDict {[ "message" := VStr "Project created" ]})).
  - reflexivity.
  - vm_compute. discriminate.
  - reflexivity.
  - reflexivity.
  - vm_compute. reflexivity.
Defined.
